(** * Lab QA/QC engine: blank, duplicate and CRM evaluators and the summary

    A shallow embedding of [qc_engine/blank_wide.py],
    [qc_engine/duplicate_wide.py], [qc_engine/crm_wide.py] and
    [qc_engine/qc_summary.py].

    Python floats are IEEE binary64 numbers, so they are modelled by Rocq's
    primitive floats: [nan] is pandas' missing value, and every comparison
    with [nan] is false, as in the source.  Status values stay strings, as in
    the source, because the summary compares them as strings.  A pandas
    column is a list of cells, one per row; a masked assignment
    [s[mask] = v] is the per-row update [if mask then v else s]. *)

From Stdlib Require Import Floats ZArith List String Ascii Bool Arith Lia.
From Stdlib Require Import Uint63 Permutation.
Import ListNotations.

Set Warnings "-inexact-float".
Local Open Scope string_scope.

(** ** Python string primitives used by the engine *)

Module PyStr.

(** [str.isspace] on the ASCII range: TAB..CR, FS..US and the space. *)
Definition is_space (c : ascii) : bool :=
  let n := nat_of_ascii c in
  ((9 <=? n)%nat && (n <=? 13)%nat) || ((28 <=? n)%nat && (n <=? 32)%nat).

Fixpoint lstrip (s : string) : string :=
  match s with
  | EmptyString => EmptyString
  | String c s' => if is_space c then lstrip s' else s
  end.

Fixpoint rev (s : string) (acc : string) : string :=
  match s with
  | EmptyString => acc
  | String c s' => rev s' (String c acc)
  end.

Definition rstrip (s : string) : string := rev (lstrip (rev s "")) "".

(** [s.strip()] *)
Definition strip (s : string) : string := rstrip (lstrip s).

(** [s.startswith(p)] *)
Definition startswith (s p : string) : bool := String.prefix p s.

(** [p in s] (and [Series.str.contains(p)] for a pattern without regex
    metacharacters). *)
Fixpoint contains (p s : string) : bool :=
  String.prefix p s ||
  match s with
  | EmptyString => false
  | String _ s' => contains p s'
  end.

(** [s.replace(old, new)] for a non-empty [old]: leftmost, non-overlapping
    occurrences.  [skip] counts the characters of a matched occurrence that
    are still to be dropped. *)
Fixpoint replace_from (old new s : string) (skip : nat) : string :=
  match s with
  | EmptyString => EmptyString
  | String c s' =>
      match skip with
      | S k => replace_from old new s' k
      | O =>
          if String.prefix old s
          then new ++ replace_from old new s' (String.length old - 1)
          else String c (replace_from old new s' 0)
      end
  end.

Definition replace (s old new : string) : string := replace_from old new s 0.

Definition lower_ascii (c : ascii) : ascii :=
  let n := nat_of_ascii c in
  if ((65 <=? n)%nat && (n <=? 90)%nat) then ascii_of_nat (n + 32) else c.

(** [s.lower()] on ASCII text. *)
Fixpoint lower (s : string) : string :=
  match s with
  | EmptyString => EmptyString
  | String c s' => String (lower_ascii c) (lower s')
  end.

Definition is_digit (c : ascii) : bool :=
  let n := nat_of_ascii c in ((48 <=? n)%nat && (n <=? 57)%nat).

Definition upper_ascii (c : ascii) : ascii :=
  let n := nat_of_ascii c in
  if ((97 <=? n)%nat && (n <=? 122)%nat) then ascii_of_nat (n - 32) else c.

(** [s.upper()] on ASCII text. *)
Fixpoint upper (s : string) : string :=
  match s with
  | EmptyString => EmptyString
  | String c s' => String (upper_ascii c) (upper s')
  end.

(** [s.endswith(p)] *)
Definition endswith (s p : string) : bool :=
  String.prefix (rev p "") (rev s "").

End PyStr.

(** ** Cells, floats and data frames *)

(** A value held in a pandas object column: [None], a float (which may be
    [nan]) or a string. *)
Inductive cell : Type :=
| CNone
| CNum (x : float)
| CStr (s : string).

(** [pd.isna(x)] *)
Definition pd_isna (c : cell) : bool :=
  match c with
  | CNone => true
  | CNum x => PrimFloat.is_nan x
  | CStr _ => false
  end.

Definition float_of_nat (n : nat) : float :=
  PrimFloat.of_uint63 (Uint63.of_Z (Z.of_nat n)).

(** [Series.dropna()] on a float column. *)
Definition dropna (l : list float) : list float :=
  filter (fun v => negb (PrimFloat.is_nan v)) l.

Definition fsum (l : list float) : float :=
  fold_left PrimFloat.add l 0%float.

(** [Series.mean()] of a column without missing values: the sum over the
    count, which is [nan] for the empty column.  (pandas may add the terms
    in another order; no statement below depends on the order.) *)
Definition mean (l : list float) : float :=
  (fsum l / float_of_nat (List.length l))%float.

(** [Series.std(ddof=0)]: population standard deviation. *)
Definition std0 (l : list float) : float :=
  let m := mean l in
  PrimFloat.sqrt
    (fsum (map (fun v => ((v - m) * (v - m))%float) l)
     / float_of_nat (List.length l))%float.

(** A row of the QC table maps column names to cells; a data frame has its
    list of column names and its rows. *)
Definition row : Type := list (string * cell).

Fixpoint get (col : string) (r : row) : cell :=
  match r with
  | [] => CNone
  | (k, v) :: r' => if String.eqb k col then v else get col r'
  end.

Record DataFrame : Type := {
  df_columns : list string;
  df_rows : list row
}.

Definition has_column (df : DataFrame) (col : string) : bool :=
  existsb (String.eqb col) (df_columns df).

(** [df[col]]: the column as the list of its cells. *)
Definition column (col : string) (rows : list row) : list cell :=
  map (get col) rows.

(** [Series.str.contains(p, na=False)] on one cell. *)
Definition str_contains (p : string) (c : cell) : bool :=
  match c with
  | CStr s => PyStr.contains p s
  | _ => false
  end.

(** [Series == s] on one cell. *)
Definition cell_is (s : string) (c : cell) : bool :=
  match c with
  | CStr t => String.eqb t s
  | _ => false
  end.

(** One entry of the analyte metadata dictionary. *)
Record analyte_meta : Type := {
  m_analyte : string;
  m_unit : string;
  m_dl : float
}.

(** [f"{analyte}_{unit}".replace(" ", "").replace("/", "")] *)
Definition col_name (m : analyte_meta) : string :=
  PyStr.replace (PyStr.replace (m_analyte m ++ "_" ++ m_unit m) " " "") "/" "".

(** ** blank_wide.py *)

Module BlankWide.

(** The [rule] argument: a number or a name. *)
Inductive bdl_rule : Type :=
| RuleNum (x : float)
| RuleStr (s : string).

Definition bdl_substitution (dl : float) (rule : bdl_rule) : float :=
  match rule with
  | RuleNum x => x
  | RuleStr r =>
      let r := PyStr.lower r in
      if String.eqb r "half" then (dl / 2)%float
      else if String.eqb r "sqrt2" then (dl / PrimFloat.sqrt 2)%float
      else if String.eqb r "zero" then 0%float
      else if String.eqb r "dl" then dl
      else (dl / 2)%float
  end.

Definition is_bdl (x : cell) : bool :=
  match x with
  | CStr s => PyStr.startswith (PyStr.strip s) "<"
  | _ => false
  end.

Record blank_record : Type := {
  Analyte : string;
  Unit : string;
  DL : float;
  Values : list cell;
  Average : cell;
  StDev : cell;
  Blank_Status : string
}.

Section WithFloatParser.

(** Python's [float(s)] on a string; [None] when it raises. *)
Variable py_float : string -> option float.

Definition to_numeric_with_bdl (x : cell) (dl : float) (rule : bdl_rule)
  : float :=
  if pd_isna x then nan
  else if is_bdl x then bdl_substitution dl rule
  else match x with
       | CNum v => v
       | CStr s => match py_float s with Some v => v | None => nan end
       | CNone => nan
       end.

(** The body of the loop of [compute_blank_qc] for one analyte whose
    column is [raw]. *)
Definition blank_column (m : analyte_meta) (raw : list cell)
    (tolerance_factor : float) (rule : bdl_rule) : blank_record :=
  let dl := m_dl m in
  let numeric := map (fun x => to_numeric_with_bdl x dl rule) raw in
  if forallb pd_isna raw then
    {| Analyte := m_analyte m; Unit := m_unit m; DL := dl;
       Values := raw; Average := CStr ""; StDev := CStr "";
       Blank_Status := "NotEvaluated" |}
  else
    let valid := dropna numeric in
    let avg := mean valid in
    let stdev := std0 valid in
    let status :=
      if existsb is_bdl raw then "OK"
      else if (avg <? dl)%float then "OK"
      else if (avg <? dl * tolerance_factor)%float
           then "Needs Investigation"
           else "Fail" in
    {| Analyte := m_analyte m; Unit := m_unit m; DL := dl;
       Values := raw; Average := CNum avg; StDev := CNum stdev;
       Blank_Status := status |}.

Definition blank_rows (df : DataFrame) : list row :=
  filter (fun r => str_contains "Blank" (get "QC_Type" r)) (df_rows df).

(** The records appended to [results], in metadata order: an analyte
    whose column is not in the table is skipped. *)
Fixpoint blank_results (df : DataFrame) (metadata : list analyte_meta)
    (tolerance_factor : float) (rule : bdl_rule) : list blank_record :=
  match metadata with
  | [] => []
  | m :: rest =>
      if has_column df (col_name m)
      then blank_column m (column (col_name m) (blank_rows df))
             tolerance_factor rule
           :: blank_results df rest tolerance_factor rule
      else blank_results df rest tolerance_factor rule
  end.

(** [compute_blank_qc]: the empty table when there is no blank row;
    [None] when [pd.concat] raises on an empty list of results. *)
Definition compute_blank_qc (df : DataFrame) (metadata : list analyte_meta)
    (tolerance_factor : float) (rule : bdl_rule)
  : option (list blank_record) :=
  match blank_rows df with
  | [] => Some []
  | _ =>
      match blank_results df metadata tolerance_factor rule with
      | [] => None
      | results => Some results
      end
  end.

End WithFloatParser.

End BlankWide.

(** ** duplicate_wide.py *)

Module DuplicateWide.

(** The duplicate module's own substitution: it takes no rule. *)
Definition bdl_substitution (dl : float) : float := (dl / 2)%float.

(** [base_name]: [None] for a sample name that is not a string. *)
Definition base_name (sample : cell) : option string :=
  match sample with
  | CStr s =>
      Some (PyStr.strip (PyStr.replace (PyStr.replace s " Orig" "") " Dup" ""))
  | _ => None
  end.

Definition is_bdl (x : cell) : bool :=
  match x with
  | CStr s => PyStr.startswith (PyStr.strip s) "<"
  | _ => false
  end.

(** [|a - b| / ((a + b) / 2) * 100] *)
Definition rpd_of (a b : float) : float :=
  (PrimFloat.abs (a - b) / ((a + b) / 2) * 100)%float.

(** [pd.to_numeric(rpd, errors="coerce")] on the values the RPD column
    holds: [None] and the empty string become [nan]. *)
Definition rpd_to_numeric (c : cell) : float :=
  match c with
  | CNum x => x
  | _ => nan
  end.

Record dup_record : Type := {
  Sample : option string;
  Analyte : string;
  Unit : string;
  Orig : cell;
  Dup : cell;
  Orig_num : float;
  Dup_num : float;
  DL : float;
  Above10xDL : bool;
  RPD : cell;
  Status : string
}.

(** Equality of join keys; pandas matches missing keys with each other. *)
Definition key_eqb (a b : option string) : bool :=
  match a, b with
  | Some s, Some t => String.eqb s t
  | None, None => true
  | _, _ => false
  end.

Definition dup_base (r : row) : option string := base_name (get "Sample" r).

Definition dup_rows (df : DataFrame) : list row :=
  filter (fun r => str_contains "Duplicate" (get "QC_Type" r)) (df_rows df).

Definition orig_rows (df : DataFrame) : list row :=
  filter (fun r => cell_is "Duplicate_Orig" (get "QC_Type" r)) (dup_rows df).

Definition dupe_rows (df : DataFrame) : list row :=
  filter (fun r => cell_is "Duplicate_Dup" (get "QC_Type" r)) (dup_rows df).

(** [pd.merge(df_orig, df_dupe, on="DUP_Base")]: the inner join, every
    original row with every duplicate row of the same base key. *)
Definition merged (df : DataFrame) : list (row * row) :=
  flat_map
    (fun o =>
       map (fun d => (o, d))
           (filter (fun d => key_eqb (dup_base d) (dup_base o)) (dupe_rows df)))
    (orig_rows df).

Section WithFloatParser.

(** Python's [float(s)] on a string; [None] when it raises. *)
Variable py_float : string -> option float.

Definition to_numeric_with_bdl (x : cell) (dl : float) : float :=
  if pd_isna x then nan
  else if is_bdl x then bdl_substitution dl
  else match x with
       | CNum v => v
       | CStr s => match py_float s with Some v => v | None => nan end
       | CNone => nan
       end.

(** One row of the merged table for one analyte: the masks of
    [compute_duplicate_rpd] and its masked assignments, in source
    order. *)
Definition pair_record (base : option string) (m : analyte_meta)
    (rpd_tolerance : float) (orig_raw dup_raw : cell) : dup_record :=
  let dl := m_dl m in
  let orig_blank := pd_isna orig_raw in
  let dup_blank := pd_isna dup_raw in
  let blank_mask := orig_blank || dup_blank in
  let orig_bdl := is_bdl orig_raw in
  let dup_bdl := is_bdl dup_raw in
  let orig_num := to_numeric_with_bdl orig_raw dl in
  let dup_num := to_numeric_with_bdl dup_raw dl in
  let above_10x :=
    ((10 * dl <? orig_num) && (10 * dl <? dup_num))%float in
  let rpd := CNone in
  let status := "" in
  (* 1) missing values *)
  let rpd := if blank_mask then CStr "" else rpd in
  let status := if blank_mask then "NotEvaluated" else status in
  (* 2) both BDL *)
  let both_bdl := orig_bdl && dup_bdl && negb blank_mask in
  let rpd := if both_bdl then CStr "" else rpd in
  let status := if both_bdl then "BothBDL" else status in
  (* 3) one BDL, one detected *)
  let bdl_mismatch :=
    ((orig_bdl && negb dup_bdl) || (dup_bdl && negb orig_bdl))
    && negb blank_mask in
  let rpd := if bdl_mismatch then CNum (rpd_of orig_num dup_num) else rpd in
  let status := if bdl_mismatch then "BDL_Substitution" else status in
  (* 4) both detected but not both above 10 x DL *)
  let low_grade :=
    negb orig_bdl && negb dup_bdl && negb blank_mask && negb above_10x in
  let rpd := if low_grade then CStr "" else rpd in
  let status := if low_grade then "Below10xDL" else status in
  (* 5) valid precision evaluation *)
  let valid :=
    above_10x && negb blank_mask && negb orig_bdl && negb dup_bdl in
  let rpd := if valid then CNum (rpd_of orig_num dup_num) else rpd in
  let rpd_num := rpd_to_numeric rpd in
  let numeric_mask := valid && negb (PrimFloat.is_nan rpd_num) in
  let status :=
    if numeric_mask && (rpd_num <=? rpd_tolerance)%float
    then "OK" else status in
  let status :=
    if numeric_mask && (rpd_tolerance <? rpd_num)%float
    then "Fail_RPD" else status in
  {| Sample := base; Analyte := m_analyte m; Unit := m_unit m;
     Orig := orig_raw; Dup := dup_raw;
     Orig_num := orig_num; Dup_num := dup_num; DL := dl;
     Above10xDL := above_10x; RPD := rpd; Status := status |}.

(** The frame appended to [results] for one analyte: one record per row
    of the merged table. *)
Definition analyte_records (df : DataFrame) (m : analyte_meta)
    (rpd_tolerance : float) : list dup_record :=
  map (fun p =>
         pair_record (dup_base (fst p)) m rpd_tolerance
           (get (col_name m) (fst p)) (get (col_name m) (snd p)))
      (merged df).

(** [compute_duplicate_rpd]: the frames of the analytes whose column is
    in the table, concatenated; the empty table when there is none. *)
Definition compute_duplicate_rpd (df : DataFrame)
    (metadata : list analyte_meta) (rpd_tolerance : float)
  : list dup_record :=
  flat_map (fun m => analyte_records df m rpd_tolerance)
           (filter (fun m => has_column df (col_name m)) metadata).

End WithFloatParser.

End DuplicateWide.

(** ** crm_wide.py *)

Module CrmWide.

Fixpoint skip_spaces (s : string) : string :=
  match s with
  | String c s' => if PyStr.is_space c then skip_spaces s' else s
  | EmptyString => EmptyString
  end.

Fixpoint skip_digits (s : string) : string :=
  match s with
  | String c s' => if PyStr.is_digit c then skip_digits s' else s
  | EmptyString => EmptyString
  end.

(** One digit or more, then the rest; [None] when there is no digit. *)
Definition digits1 (s : string) : option string :=
  match s with
  | String c s' => if PyStr.is_digit c then Some (skip_digits s') else None
  | EmptyString => None
  end.

(** The regular expression [^[<>]\s*\d+(\.\d+)?$] on a stripped string. *)
Definition is_qualifier (s : string) : bool :=
  match s with
  | String c s1 =>
      if (Ascii.eqb c "<" || Ascii.eqb c ">")%char then
        match digits1 (skip_spaces s1) with
        | None => false
        | Some EmptyString => true
        | Some (String d s2) =>
            if Ascii.eqb d "."%char then
              match digits1 s2 with
              | Some EmptyString => true
              | _ => false
              end
            else false
        end
      else false
  | EmptyString => false
  end.

(** [pd.to_numeric(recovery, errors="coerce")] on the values the Recovery
    column holds: [None], the empty string and ["BDL"] become [nan]. *)
Definition recovery_to_numeric (c : cell) : float :=
  match c with
  | CNum x => x
  | _ => nan
  end.

Record crm_record : Type := {
  CRM : option string;
  Analyte : string;
  Unit : string;
  Measured : float;
  Certified : float;
  DL : float;
  Recovery : cell;
  Bias : cell;
  CRM_Status : string
}.

Section WithNumericParser.

(** [pd.to_numeric] on one string; [None] when it is coerced to NaN. *)
Variable pd_numeric : string -> option float.

(** The cleaning of a measured or certified cell: the cell as a string,
    stripped, a qualified value ["<X"] or [">X"] replaced by NaN, then
    [pd.to_numeric].  A float cell survives its trip through [str]
    unchanged. *)
Definition clean (c : cell) : float :=
  match c with
  | CNone => nan
  | CNum x => x
  | CStr s =>
      let t := PyStr.strip s in
      if is_qualifier t then nan
      else match pd_numeric t with Some v => v | None => nan end
  end.

(** One row of the merged Meas/Cert table for one analyte: the masks of
    [compute_crm_recovery] and its masked assignments, in source
    order. *)
Definition crm_pair (base : option string) (m : analyte_meta)
    (low_tol high_tol : float) (measured_raw certified_raw : cell)
  : crm_record :=
  let dl := m_dl m in
  let measured := clean measured_raw in
  let certified := clean certified_raw in
  let meas_blank := PrimFloat.is_nan measured in
  let cert_blank := PrimFloat.is_nan certified in
  let both_missing := meas_blank && cert_blank in
  let one_missing := (meas_blank || cert_blank) && negb both_missing in
  let recovery := CNone in
  let bias := CNone in
  let status := "" in
  (* 1) both missing *)
  let recovery := if both_missing then CStr "" else recovery in
  let bias := if both_missing then CStr "" else bias in
  let status := if both_missing then "NotApplicable" else status in
  (* 2) one missing *)
  let recovery := if one_missing then CStr "" else recovery in
  let bias := if one_missing then CStr "" else bias in
  let status := if one_missing then "NotEvaluated" else status in
  (* 3) certified < DL *)
  let cert_below_dl := (certified <? dl)%float in
  let mask_cert_below :=
    cert_below_dl && negb (both_missing || one_missing) in
  let recovery := if mask_cert_below then CStr "" else recovery in
  let bias := if mask_cert_below then CStr "" else bias in
  let status := if mask_cert_below then "NotApplicable" else status in
  (* 3b) certified < 10 x DL *)
  let mask_cert_below_10x :=
    (certified <? 10 * dl)%float
    && negb (both_missing || one_missing || mask_cert_below) in
  let recovery := if mask_cert_below_10x then CStr "" else recovery in
  let bias := if mask_cert_below_10x then CStr "" else bias in
  let status := if mask_cert_below_10x then "Below10xDL" else status in
  (* 4) certified >= DL and measured < DL *)
  let mask_needs_inv :=
    (dl <=? certified)%float && (measured <? dl)%float
    && negb (both_missing || one_missing || mask_cert_below
             || mask_cert_below_10x) in
  let recovery := if mask_needs_inv then CStr "BDL" else recovery in
  let bias := if mask_needs_inv then CStr "BDL" else bias in
  let status := if mask_needs_inv then "Needs Investigation" else status in
  (* 5) valid numeric *)
  let valid_mask :=
    negb (both_missing || one_missing || mask_cert_below
          || mask_cert_below_10x || mask_needs_inv) in
  let valid_mask :=
    valid_mask && negb (PrimFloat.is_nan measured)
    && negb (PrimFloat.is_nan certified) in
  let recovery :=
    if valid_mask then CNum (measured / certified * 100)%float
    else recovery in
  let bias :=
    if valid_mask then CNum (recovery_to_numeric recovery - 100)%float
    else bias in
  let recovery_num := recovery_to_numeric recovery in
  let numeric_mask := valid_mask && negb (PrimFloat.is_nan recovery_num) in
  let status :=
    if numeric_mask && (low_tol <=? recovery_num)%float
       && (recovery_num <=? high_tol)%float
    then "OK" else status in
  let status :=
    if numeric_mask
       && ((recovery_num <? low_tol)%float
           || (high_tol <? recovery_num)%float)
    then "Fail" else status in
  {| CRM := base; Analyte := m_analyte m; Unit := m_unit m;
     Measured := measured; Certified := certified; DL := dl;
     Recovery := recovery; Bias := bias; CRM_Status := status |}.

End WithNumericParser.

(** *** Pairing of the measured and certified rows *)

(** [base_name]: [None] for a sample name that is not a string. *)
Definition base_name (sample : cell) : option string :=
  match sample with
  | CStr s =>
      Some (PyStr.strip (PyStr.replace (PyStr.replace s " Meas" "") " Cert" ""))
  | _ => None
  end.

Definition crm_base (r : row) : option string := base_name (get "Sample" r).

Definition crm_rows (df : DataFrame) : list row :=
  filter (fun r => cell_is "CRM" (get "QC_Type" r)) (df_rows df).

Definition meas_rows (df : DataFrame) : list row :=
  filter (fun r => str_contains " Meas" (get "Sample" r)) (crm_rows df).

Definition cert_rows (df : DataFrame) : list row :=
  filter (fun r => str_contains " Cert" (get "Sample" r)) (crm_rows df).

(** [groupby("CRM_Base").cumcount()]: each row with the number of earlier
    rows of its base name; [seen] holds the base names of the rows already
    passed. *)
Fixpoint cumcount_from (seen : list (option string)) (l : list row)
  : list (row * nat) :=
  match l with
  | [] => []
  | r :: l' =>
      (r, List.length (filter (DuplicateWide.key_eqb (crm_base r)) seen))
      :: cumcount_from (crm_base r :: seen) l'
  end.

Definition cumcount (l : list row) : list (row * nat) := cumcount_from [] l.

(** [pd.merge(df_meas, df_cert, on=["CRM_Base", "CRM_Index"])]: the inner
    join on the base name and the run index. *)
Definition merged (df : DataFrame) : list (row * row) :=
  flat_map
    (fun m =>
       map (fun c => (fst m, fst c))
           (filter (fun c =>
                      DuplicateWide.key_eqb (crm_base (fst c)) (crm_base (fst m))
                      && Nat.eqb (snd c) (snd m))
                   (cumcount (cert_rows df))))
    (cumcount (meas_rows df)).

Section Recovery.

(** [pd.to_numeric] on one string; [None] when it is coerced to NaN. *)
Variable pd_numeric : string -> option float.

(** The frame appended to [results] for one analyte: one record per row of
    the merged table. *)
Definition analyte_records (df : DataFrame) (m : analyte_meta)
    (low_tol high_tol : float) : list crm_record :=
  map (fun p =>
         crm_pair pd_numeric (crm_base (fst p)) m low_tol high_tol
           (get (col_name m) (fst p)) (get (col_name m) (snd p)))
      (merged df).

(** [compute_crm_recovery]: the frames of the analytes whose column is in
    the table, concatenated; the empty table when there is none. *)
Definition compute_crm_recovery (df : DataFrame)
    (metadata : list analyte_meta) (low_tol high_tol : float)
  : list crm_record :=
  flat_map (fun m => analyte_records df m low_tol high_tol)
           (filter (fun m => has_column df (col_name m)) metadata).

End Recovery.

End CrmWide.

(** ** qc_summary.py *)

Module QcSummary.

(** A table: its column names and its rows. *)
Record table (A : Type) : Type := {
  columns : list string;
  rows : list A
}.
Arguments columns {A} _.
Arguments rows {A} _.

(** [x in l] for strings. *)
Definition in_list (x : string) (l : list string) : bool :=
  existsb (String.eqb x) l.

(** [statuses.count(s)] *)
Definition count (s : string) (statuses : list string) : nat :=
  List.length (filter (String.eqb s) statuses).

(** [normalize_status]: a missing value reads as NotEvaluated. *)
Definition normalize_status (x : option string) : string :=
  match x with
  | None => "NotEvaluated"
  | Some s => s
  end.

(** [final_flag] on the three values [row.get] returns; [None] stands for
    a missing column or a NaN left by the merge. *)
Definition final_flag (crm_status dup_status blank_status : option string)
  : string :=
  let crm := normalize_status crm_status in
  let dup := normalize_status dup_status in
  let blank := normalize_status blank_status in
  if String.eqb crm "Fail" || String.eqb dup "Fail" || String.eqb blank "Fail"
  then "Fail"
  else if String.eqb crm "Needs Investigation" then "Needs Investigation"
  else if in_list dup ["BDL_Substitution"; "NotEvaluated"]
       then "Needs Investigation"
  else if in_list blank ["Needs Investigation"; "NotEvaluated"]
       then "Needs Investigation"
  else "Pass".

Definition compute_crm_final_status (statuses : list string) : string :=
  let fail_count := count "Fail" statuses in
  let ni_count := count "Needs Investigation" statuses in
  let ok_count := count "OK" statuses in
  if (2 <=? fail_count)%nat then "Fail"
  else if (fail_count =? 1)%nat then "Needs Investigation"
  else if (0 <? ni_count)%nat then "Needs Investigation"
  else if (0 <? ok_count)%nat then "OK"
  else if forallb (fun s => in_list s ["NotApplicable"; "Below10xDL"]) statuses
       then "NotApplicable"
  else "NotEvaluated".

Definition compute_dup_final_status (statuses : list string) : string :=
  if in_list "Fail_RPD" statuses then "Fail"
  else if in_list "BDL_Substitution" statuses then "Needs Investigation"
  else if in_list "NotEvaluated" statuses then "Needs Investigation"
  else if in_list "OK" statuses then "OK"
  else if forallb (fun s => in_list s ["BothBDL"; "Below10xDL"]) statuses
       then "NotApplicable"
  else "NotEvaluated".

(** The group and join key: (Analyte, Unit). *)
Definition key : Type := (string * string)%type.

Definition key_eqb (a b : key) : bool :=
  String.eqb (fst a) (fst b) && String.eqb (snd a) (snd b).

Definition key_leb (a b : key) : bool :=
  match String.compare (fst a) (fst b) with
  | Lt => true
  | Gt => false
  | Eq => String.leb (snd a) (snd b)
  end.

Fixpoint insert_sorted (k : key) (l : list key) : list key :=
  match l with
  | [] => [k]
  | h :: t => if key_leb k h then k :: l else h :: insert_sorted k t
  end.

Definition add_key (k : key) (l : list key) : list key :=
  if existsb (key_eqb k) l then l else insert_sorted k l.

(** The group keys of [groupby(["Analyte", "Unit"])]: each key once, in
    sorted order. *)
Definition group_keys (ks : list key) : list key :=
  fold_right add_key [] ks.

(** [groupby(...).apply(reduce)]: one row per group key, computed from the
    rows of the group. *)
Definition group_apply {A B : Type} (key_of : A -> key)
    (reduce : list A -> B) (l : list A) : list (key * B) :=
  map (fun k => (k, reduce (filter (fun a => key_eqb (key_of a) k) l)))
      (group_keys (map key_of l)).

Record crm_summary : Type := {
  CRM_Recovery : float;
  CRM_Bias : float;
  CRM_PassCount : nat;
  CRM_FailCount : nat;
  CRM_NeedsInvestigationCount : nat;
  CRM_Below10xDLCount : nat;
  CRM_NotApplicableCount : nat;
  CRM_NotEvaluatedCount : nat;
  CRM_TotalEvaluated : nat;
  CRM_FinalStatus : string
}.

Record dup_summary : Type := {
  Duplicate_RPD : float;
  Duplicate_PassCount : nat;
  Duplicate_FailCount : nat;
  Duplicate_BDLSubCount : nat;
  Duplicate_BothBDLCount : nat;
  Duplicate_Below10xDLCount : nat;
  Duplicate_NotEvaluatedCount : nat;
  Duplicate_TotalEvaluated : nat;
  Duplicate_Status : string
}.

Record blank_summary : Type := {
  Blank_Average : cell;
  Blank_StDev : cell;
  Blank_Status : string
}.

Definition reduce_crm (group : list CrmWide.crm_record) : crm_summary :=
  let statuses := map CrmWide.CRM_Status group in
  {| CRM_Recovery :=
       mean (dropna (map (fun r => CrmWide.recovery_to_numeric
                                     (CrmWide.Recovery r)) group));
     CRM_Bias :=
       mean (dropna (map (fun r => CrmWide.recovery_to_numeric
                                     (CrmWide.Bias r)) group));
     CRM_PassCount := count "OK" statuses;
     CRM_FailCount := count "Fail" statuses;
     CRM_NeedsInvestigationCount := count "Needs Investigation" statuses;
     CRM_Below10xDLCount := count "Below10xDL" statuses;
     CRM_NotApplicableCount := count "NotApplicable" statuses;
     CRM_NotEvaluatedCount := count "NotEvaluated" statuses;
     CRM_TotalEvaluated :=
       count "OK" statuses + count "Fail" statuses
       + count "Needs Investigation" statuses;
     CRM_FinalStatus := compute_crm_final_status statuses |}.

Definition reduce_dup (group : list DuplicateWide.dup_record) : dup_summary :=
  let statuses := map DuplicateWide.Status group in
  {| Duplicate_RPD :=
       mean (dropna (map (fun r => DuplicateWide.rpd_to_numeric
                                     (DuplicateWide.RPD r)) group));
     Duplicate_PassCount := count "OK" statuses;
     Duplicate_FailCount := count "Fail_RPD" statuses;
     Duplicate_BDLSubCount := count "BDL_Substitution" statuses;
     Duplicate_BothBDLCount := count "BothBDL" statuses;
     Duplicate_Below10xDLCount := count "Below10xDL" statuses;
     Duplicate_NotEvaluatedCount := count "NotEvaluated" statuses;
     Duplicate_TotalEvaluated :=
       count "OK" statuses + count "Fail_RPD" statuses;
     Duplicate_Status := compute_dup_final_status statuses |}.

Definition crm_key (r : CrmWide.crm_record) : key :=
  (CrmWide.Analyte r, CrmWide.Unit r).
Definition dup_key (r : DuplicateWide.dup_record) : key :=
  (DuplicateWide.Analyte r, DuplicateWide.Unit r).
Definition blank_key (r : BlankWide.blank_record) : key :=
  (BlankWide.Analyte r, BlankWide.Unit r).

Definition crm_small (crm : list CrmWide.crm_record)
  : table (key * crm_summary) :=
  match crm with
  | [] =>
      {| columns :=
           ["Analyte"; "Unit"; "CRM_Recovery"; "CRM_Bias";
            "CRM_PassCount"; "CRM_FailCount";
            "CRM_NeedsInvestigationCount";
            "CRM_NotApplicableCount"; "CRM_NotEvaluatedCount";
            "CRM_TotalEvaluated"; "CRM_FinalStatus"];
         rows := [] |}
  | _ =>
      {| columns :=
           ["Analyte"; "Unit"; "CRM_Recovery"; "CRM_Bias";
            "CRM_PassCount"; "CRM_FailCount";
            "CRM_NeedsInvestigationCount"; "CRM_Below10xDLCount";
            "CRM_NotApplicableCount"; "CRM_NotEvaluatedCount";
            "CRM_TotalEvaluated"; "CRM_FinalStatus"];
         rows := group_apply crm_key reduce_crm crm |}
  end.

Definition dup_small (dup : list DuplicateWide.dup_record)
  : table (key * dup_summary) :=
  {| columns :=
       ["Analyte"; "Unit"; "Duplicate_RPD";
        "Duplicate_PassCount"; "Duplicate_FailCount";
        "Duplicate_BDLSubCount"; "Duplicate_BothBDLCount";
        "Duplicate_Below10xDLCount"; "Duplicate_NotEvaluatedCount";
        "Duplicate_TotalEvaluated"; "Duplicate_Status"];
     rows := group_apply dup_key reduce_dup dup |}.

Definition blank_small (blank : list BlankWide.blank_record)
  : table (key * blank_summary) :=
  {| columns :=
       ["Analyte"; "Unit"; "Blank_Average"; "Blank_StDev"; "Blank_Status"];
     rows :=
       map (fun r =>
              (blank_key r,
               {| Blank_Average := BlankWide.Average r;
                  Blank_StDev := BlankWide.StDev r;
                  Blank_Status := BlankWide.Blank_Status r |}))
           blank |}.

(** [pd.merge(left, right, on=["Analyte", "Unit"], how="left")]: every
    left row, with each right row of its key, or with nothing. *)
Definition left_join {L R : Type} (left : list (key * L))
    (right : list (key * R)) : list (key * (L * option R)) :=
  flat_map
    (fun l =>
       match filter (fun r => key_eqb (fst r) (fst l)) right with
       | [] => [(fst l, (snd l, None))]
       | matches => map (fun r => (fst l, (snd l, Some (snd r)))) matches
       end)
    left.

(** [safe_merge]: the left table unchanged, without the right table's
    columns, when the right table has no row. *)
Definition safe_merge {L R : Type} (left : table (key * L))
    (right : table (key * R)) : table (key * (L * option R)) :=
  match rows right with
  | [] =>
      {| columns := columns left;
         rows := map (fun l => (fst l, (snd l, None))) (rows left) |}
  | _ =>
      {| columns :=
           (columns left
            ++ filter (fun c => negb (in_list c ["Analyte"; "Unit"]))
                      (columns right))%list;
         rows := left_join (rows left) (rows right) |}
  end.

Definition col_order : list string :=
  ["Analyte"; "Unit";
   "CRM_Recovery"; "CRM_Bias";
   "CRM_PassCount"; "CRM_FailCount";
   "CRM_NeedsInvestigationCount"; "CRM_Below10xDLCount";
   "CRM_NotApplicableCount"; "CRM_NotEvaluatedCount";
   "CRM_TotalEvaluated"; "CRM_FinalStatus";
   "Duplicate_RPD"; "Duplicate_Status";
   "Duplicate_PassCount"; "Duplicate_FailCount";
   "Duplicate_BDLSubCount"; "Duplicate_BothBDLCount";
   "Duplicate_Below10xDLCount"; "Duplicate_NotEvaluatedCount";
   "Duplicate_TotalEvaluated";
   "Blank_Average"; "Blank_StDev"; "Blank_Status";
   "Final_QC_Flag"].

Record summary_row : Type := {
  s_key : key;
  s_crm : crm_summary;
  s_dup : option dup_summary;
  s_blank : option blank_summary;
  Final_QC_Flag : string
}.

Definition summary_row_of (r : key * ((crm_summary * option dup_summary)
                                      * option blank_summary))
  : summary_row :=
  let crm := fst (fst (snd r)) in
  let dup := snd (fst (snd r)) in
  let blank := snd (snd r) in
  {| s_key := fst r; s_crm := crm; s_dup := dup; s_blank := blank;
     Final_QC_Flag :=
       final_flag (Some (CRM_FinalStatus crm))
                  (option_map Duplicate_Status dup)
                  (option_map Blank_Status blank) |}.

(** [build_qc_summary]; [None] when the selection [summary[col_order]]
    raises KeyError because a column of [col_order] is not in the merged
    table. *)
Definition build_qc_summary (crm : list CrmWide.crm_record)
    (dup : list DuplicateWide.dup_record)
    (blank : list BlankWide.blank_record) : option (list summary_row) :=
  let summary := crm_small crm in
  let summary := safe_merge summary (dup_small dup) in
  let summary := safe_merge summary (blank_small blank) in
  let cols := (columns summary ++ ["Final_QC_Flag"])%list in
  if forallb (fun c => in_list c cols) col_order
  then Some (map summary_row_of (rows summary))
  else None.

End QcSummary.

(** ** classifier.py *)

Module Classifier.

Definition classify_qc_row (sample_name : cell) : string :=
  match sample_name with
  | CStr s =>
      if String.eqb (PyStr.strip s) "" then "Other"
      else
        let name := PyStr.upper (PyStr.strip s) in
        if PyStr.contains "BLANK" name || PyStr.contains "BLK" name
        then "Blank"
        else if PyStr.contains " ORIG" name || PyStr.endswith name "ORIG"
        then "Duplicate_Orig"
        else if PyStr.contains " DUP" name || PyStr.endswith name "DUP"
        then "Duplicate_Dup"
        else "CRM"
  | _ => "Other"
  end.

(** [classify_qc_table]: the column QC_Type is set, in every row, to the
    class of the row's Sample. *)
Definition classify_qc_table (df : DataFrame) : DataFrame :=
  {| df_columns :=
       if has_column df "QC_Type" then df_columns df
       else (df_columns df ++ ["QC_Type"])%list;
     df_rows :=
       map (fun r => ("QC_Type", CStr (classify_qc_row (get "Sample" r))) :: r)
           (df_rows df) |}.

End Classifier.

(** ** interpretation.py: the duplicate and blank metrics *)

Module Interpretation.

Record dup_metrics : Type := {
  count : nat;
  failures : nat;
  failed : list string;
  skipped : nat
}.

Record blank_metrics : Type := {
  b_count : nat;
  b_failures : nat;
  b_failed : list string
}.

Section WithFormat.

(** The text of a float in a format string: [f"{x:.1f}"] for the RPD,
    [f"{x}"] for a cell of the blank table. *)
Variable format_1f : float -> string.
Variable format_cell : cell -> string.

Definition summarize_duplicates (dup_results : list DuplicateWide.dup_record)
  : dup_metrics :=
  match dup_results with
  | [] => {| count := 0; failures := 0; failed := []; skipped := 0 |}
  | _ =>
      let dup_numeric :=
        filter (fun r => negb (PrimFloat.is_nan
                                 (DuplicateWide.rpd_to_numeric
                                    (DuplicateWide.RPD r))))
               dup_results in
      let skipped := List.length dup_results - List.length dup_numeric in
      match dup_numeric with
      | [] => {| count := 0; failures := 0; failed := []; skipped := skipped |}
      | _ =>
          let fails :=
            filter (fun r => String.eqb (PyStr.upper (DuplicateWide.Status r))
                                        "FAIL")
                   dup_numeric in
          {| count := List.length dup_numeric;
             failures := List.length fails;
             failed :=
               map (fun r =>
                      DuplicateWide.Analyte r ++ " ("
                      ++ format_1f (DuplicateWide.rpd_to_numeric
                                      (DuplicateWide.RPD r))
                      ++ "% RPD)")
                   fails;
             skipped := skipped |}
      end
  end.

Definition summarize_blanks (blank_results : list BlankWide.blank_record)
  : blank_metrics :=
  match blank_results with
  | [] => {| b_count := 0; b_failures := 0; b_failed := [] |}
  | _ =>
      let fails :=
        filter (fun r => String.eqb (PyStr.upper (BlankWide.Blank_Status r))
                                    "FAIL")
               blank_results in
      {| b_count := List.length blank_results;
         b_failures := List.length fails;
         b_failed :=
           map (fun r =>
                  BlankWide.Analyte r ++ " ("
                  ++ format_cell (BlankWide.Average r) ++ " > DL "
                  ++ format_cell (CNum (BlankWide.DL r)) ++ ")")
               fails |}
  end.

End WithFormat.

End Interpretation.

(** ** A parser for the worked examples *)

Module Examples.

Fixpoint read_digits (s : string) (acc : Z) (n : nat) : Z * nat * string :=
  match s with
  | String c s' =>
      if PyStr.is_digit c
      then read_digits s' (10 * acc + (Z.of_nat (nat_of_ascii c) - 48))%Z (S n)
      else (acc, n, s)
  | EmptyString => (acc, n, s)
  end.

Definition float_of_Z (z : Z) : float := PrimFloat.of_uint63 (Uint63.of_Z z).

(** What [float(s)] and [pd.to_numeric] return on a plain decimal literal
    (blanks around it, a sign, digits, a point): the worked examples use
    it for the string cells.  Anything else is a parse failure here. *)
Definition decimal_float (s : string) : option float :=
  let t := PyStr.strip s in
  let '(neg, t) :=
    match t with
    | String "-"%char r => (true, r)
    | String "+"%char r => (false, r)
    | _ => (false, t)
    end in
  let sign := fun x : float => if neg then (- x)%float else x in
  let '(ip, n1, rest) := read_digits t 0%Z 0 in
  match rest with
  | EmptyString => if (n1 =? 0)%nat then None else Some (sign (float_of_Z ip))
  | String "."%char r =>
      let '(fp, n2, rest2) := read_digits r ip 0 in
      match rest2 with
      | EmptyString =>
          if (n1 + n2 =? 0)%nat then None
          else Some (sign (float_of_Z fp / float_of_Z (10 ^ Z.of_nat n2))%float)
      | _ => None
      end
  | _ => None
  end.


Definition au_ppm : analyte_meta :=
  {| m_analyte := "Au"; m_unit := "ppm"; m_dl := 1%float |}.

Definition cu_ppm : analyte_meta :=
  {| m_analyte := "Cu"; m_unit := "ppm"; m_dl := 1%float |}.

(** A CRM pair of Au: measured 55 against certified 50. *)
Definition crm_au : CrmWide.crm_record :=
  CrmWide.crm_pair decimal_float (Some "STD1") au_ppm 80%float 120%float
    (CNum 55%float) (CNum 50%float).

(** A duplicate pair of Au with a censored original. *)
Definition dup_au_censored : DuplicateWide.dup_record :=
  DuplicateWide.pair_record decimal_float (Some "S1") au_ppm 30%float
    (CStr "<1") (CNum 20%float).

(** A duplicate pair of Cu, both values above ten times the limit. *)
Definition dup_cu : DuplicateWide.dup_record :=
  DuplicateWide.pair_record decimal_float (Some "S1") cu_ppm 30%float
    (CNum 50%float) (CNum 60%float).

(** A blank column of Au with one censored run. *)
Definition blank_au : BlankWide.blank_record :=
  BlankWide.blank_column decimal_float au_ppm [CStr "< 1"] 3%float
    (BlankWide.RuleStr "half").

Definition qc_row (sample qc_type : string) (au : cell) : row :=
  [("Sample", CStr sample); ("QC_Type", CStr qc_type); ("Au_ppm", au)].

(** Two originals and two duplicates of sample S1, an original of S2
    without a duplicate, and a blank. *)
Definition duplicate_table : DataFrame :=
  {| df_columns := ["Sample"; "QC_Type"; "Au_ppm"];
     df_rows :=
       [qc_row "S1 Orig" "Duplicate_Orig" (CNum 50%float);
        qc_row "S1 Dup" "Duplicate_Dup" (CNum 60%float);
        qc_row "S1 Orig" "Duplicate_Orig" (CNum 52%float);
        qc_row "S1 Dup" "Duplicate_Dup" (CStr "<1");
        qc_row "S2 Orig" "Duplicate_Orig" (CNum 70%float);
        qc_row "BLK" "Blank" (CStr "<1")] |}.

(** A data frame with two blank runs of gold. *)
Definition blank_table : DataFrame :=
  {| df_columns := ["Sample"; "QC_Type"; "Au_ppm"];
     df_rows :=
       [[("Sample", CStr "BLK 1"); ("QC_Type", CStr "Blank");
         ("Au_ppm", CNum 2%float)];
        [("Sample", CStr "BLK 2"); ("QC_Type", CStr "Blank");
         ("Au_ppm", CNum 6%float)]] |}.

(** Three measured runs and two certified rows of one material, and one
    pair of another. *)
Definition crm_table : DataFrame :=
  {| df_columns := ["Sample"; "QC_Type"; "Au_ppm"];
     df_rows :=
       [qc_row "STD1 Meas" "CRM" (CNum 55%float);
        qc_row "STD2 Meas" "CRM" (CNum 30%float);
        qc_row "STD1 Cert" "CRM" (CNum 50%float);
        qc_row "STD1 Meas" "CRM" (CNum 45%float);
        qc_row "STD1 Meas" "CRM" (CNum 99%float);
        qc_row "STD1 Cert" "CRM" (CNum 50%float);
        qc_row "STD2 Cert" "CRM" (CNum 50%float)] |}.

End Examples.

(** ** The vocabulary of the statements *)

Module Vocabulary.

(** A CRM status that takes no part in the verdict. *)
Definition crm_neutral (s : string) : Prop :=
  s = "NotApplicable" \/ s = "Below10xDL".

(** The number of rows of a keyed table that carry the key [k]. *)
Definition rows_of {A : Type} (k : QcSummary.key)
    (l : list (QcSummary.key * A)) : nat :=
  List.length (filter (fun r => QcSummary.key_eqb (fst r) k) l).

(** The number of summary rows for the pair (Analyte, Unit) [k]. *)
Definition summary_rows_of (k : QcSummary.key)
    (summary : list QcSummary.summary_row) : nat :=
  List.length
    (filter (fun r => QcSummary.key_eqb (QcSummary.s_key r) k) summary).

(** A censored string: its stripped form starts with the sign [<]. *)
Definition censored (s : string) : Prop :=
  PyStr.startswith (PyStr.strip s) "<" = true.

(** A cell that carries no number: absent, or a string that is not censored
    and that [float] rejects. *)
Definition carries_no_number (py_float : string -> option float) (c : cell)
  : Prop :=
  pd_isna c = true
  \/ exists s, c = CStr s /\ ~ censored s /\ py_float s = None.

(** [v > 10 * dl] and [v <= 10 * dl], as the source writes them. *)
Definition above_10x (dl v : float) : bool := (10 * dl <? v)%float.
Definition within_10x (dl v : float) : bool := (v <=? 10 * dl)%float.

(** The rows of a QC type with the base key [k]. *)
Definition rows_with (qc_type : string) (k : option string) (df : DataFrame)
  : list row :=
  filter (fun r => cell_is qc_type (get "QC_Type" r)
                   && DuplicateWide.key_eqb (DuplicateWide.dup_base r) k)
         (df_rows df).

(** A duplicate status that takes no part in the verdict. *)
Definition dup_neutral (s : string) : Prop :=
  s = "BothBDL" \/ s = "Below10xDL".

(** No non-empty suffix of [v] is a prefix of [q]: a partial match of [v]
    at the end of a string cannot be completed by [q]. *)
Fixpoint no_overlap (v q : string) : bool :=
  match v with
  | EmptyString => true
  | String _ v' => negb (String.prefix v q) && no_overlap v' q
  end.

(** The statuses [compute_duplicate_rpd] writes; the empty string is the
    initial value of the column. *)
Definition dup_statuses : list string :=
  ["NotEvaluated"; "BothBDL"; "BDL_Substitution"; "Below10xDL"; "OK";
   "Fail_RPD"; ""].

(** The rows of a list with the base name [k]. *)
Definition with_base (k : option string) (l : list row) : list row :=
  filter (fun r => DuplicateWide.key_eqb (CrmWide.crm_base r) k) l.

(** The join of numbered measured rows with numbered certified rows. *)
Definition joined (meas certs : list (row * nat)) : list (row * row) :=
  flat_map
    (fun m =>
       map (fun c => (fst m, fst c))
           (filter (fun c =>
                      DuplicateWide.key_eqb (CrmWide.crm_base (fst c)) (CrmWide.crm_base (fst m))
                      && Nat.eqb (snd c) (snd m))
                   certs))
    meas.

(** The row of [classify_qc_table] for a row of the input. *)
Definition classified (r : row) : row :=
  ("QC_Type", CStr (Classifier.classify_qc_row (get "Sample" r))) :: r.

(** A string with [f] applied to each character. *)
Fixpoint map_string (f : ascii -> ascii) (s : string) : string :=
  match s with
  | EmptyString => EmptyString
  | String c s' => String (f c) (map_string f s')
  end.

End Vocabulary.

(** * Properties *)

(** ** Order facts on binary64 floats *)

Module FloatFacts.

Local Open Scope float_scope.

Lemma compare_cont_Eq_antisym (p q : positive) :
  Pos.compare_cont Eq q p = CompOpp (Pos.compare_cont Eq p q).
Proof. rewrite Pos.compare_cont_antisym. reflexivity. Qed.

Lemma SFcompare_antisym (x y : spec_float) :
  SFcompare y x = option_map CompOpp (SFcompare x y).
Proof.
  destruct x as [sx | sx | | sx mx ex], y as [sy | sy | | sy my ey];
    simpl; try reflexivity;
    try (destruct sx; reflexivity); try (destruct sy; reflexivity);
    try (destruct sx, sy; reflexivity).
  destruct sx, sy; simpl; try reflexivity;
    rewrite (Z.compare_antisym ex ey);
    destruct (ex ?= ey)%Z; simpl; try reflexivity;
    change PosDef.Pos.compare_cont with Pos.compare_cont;
    rewrite (compare_cont_Eq_antisym mx my);
    destruct (Pos.compare_cont Eq mx my); reflexivity.
Qed.

Lemma SFcompare_none (x y : spec_float) :
  SFcompare x y = None -> x = S754_nan \/ y = S754_nan.
Proof.
  destruct x as [sx | sx | | sx mx ex], y as [sy | sy | | sy my ey];
    simpl; auto; discriminate.
Qed.

Lemma SFcompare_refl (x : spec_float) :
  x <> S754_nan -> SFcompare x x = Some Eq.
Proof.
  destruct x as [sx | sx | | sx mx ex]; simpl; intros H; try congruence.
  - destruct sx; reflexivity.
  - destruct sx; rewrite Z.compare_refl;
      change PosDef.Pos.compare_cont with Pos.compare_cont;
      rewrite Pos.compare_cont_refl; reflexivity.
Qed.

Lemma is_nan_Prim2SF (x : float) :
  PrimFloat.is_nan x = false -> Prim2SF x <> S754_nan.
Proof.
  unfold PrimFloat.is_nan. rewrite FloatAxioms.eqb_spec. unfold SFeqb.
  intros H E. rewrite E in H. discriminate.
Qed.

Lemma Prim2SF_is_nan (x : float) :
  Prim2SF x <> S754_nan -> PrimFloat.is_nan x = false.
Proof.
  intros H. unfold PrimFloat.is_nan. rewrite FloatAxioms.eqb_spec.
  unfold SFeqb. rewrite (SFcompare_refl _ H). reflexivity.
Qed.

(** A comparison with NaN on the left is false. *)
Lemma ltb_nan_l (x : float) : (nan <? x) = false.
Proof. rewrite FloatAxioms.ltb_spec. reflexivity. Qed.

(** [x <= y] excludes [x > y]. *)
Lemma leb_true_ltb_false (x y : float) :
  (x <=? y) = true -> (y <? x) = false.
Proof.
  rewrite FloatAxioms.leb_spec, FloatAxioms.ltb_spec. unfold SFleb, SFltb.
  rewrite (SFcompare_antisym (Prim2SF x) (Prim2SF y)).
  destruct (SFcompare (Prim2SF x) (Prim2SF y)) as [[ | | ] | ];
    simpl; congruence.
Qed.

(** On numbers, [x <= y] or [x > y]. *)
Lemma leb_false_ltb_true (x y : float) :
  PrimFloat.is_nan x = false -> PrimFloat.is_nan y = false ->
  (x <=? y) = false -> (y <? x) = true.
Proof.
  intros Hx Hy. rewrite FloatAxioms.leb_spec, FloatAxioms.ltb_spec.
  unfold SFleb, SFltb.
  rewrite (SFcompare_antisym (Prim2SF x) (Prim2SF y)).
  destruct (SFcompare (Prim2SF x) (Prim2SF y)) as [[ | | ] | ] eqn:E;
    simpl; try congruence.
  apply SFcompare_none in E. destruct E as [E | E];
    [ now apply is_nan_Prim2SF in Hx | now apply is_nan_Prim2SF in Hy ].
Qed.

Lemma ltb_true_not_nan_l (x y : float) :
  (x <? y) = true -> PrimFloat.is_nan x = false.
Proof.
  rewrite FloatAxioms.ltb_spec. unfold SFltb. intros H.
  apply Prim2SF_is_nan. intros E. rewrite E in H. discriminate.
Qed.

Lemma ltb_true_not_nan_r (x y : float) :
  (x <? y) = true -> PrimFloat.is_nan y = false.
Proof.
  rewrite FloatAxioms.ltb_spec. unfold SFltb. intros H.
  apply Prim2SF_is_nan. intros E. rewrite E in H.
  destruct (Prim2SF x); discriminate.
Qed.

(** Two floats that a comparison tells apart are different. *)
Lemma ltb_separates (x y z : float) :
  (x <? z) = true -> (y <? z) = false -> x <> y.
Proof. intros Hx Hy E. rewrite E in Hx. congruence. Qed.

End FloatFacts.

(** ** The aggregator: [qc_summary.py] *)

Module QcSummaryFacts.

Import QcSummary.
Import Vocabulary.

Lemma in_list_In (x : string) (l : list string) :
  in_list x l = true <-> In x l.
Proof.
  unfold in_list. rewrite existsb_exists. split.
  - intros (y & Hy & E). apply String.eqb_eq in E. now subst.
  - intros H. exists x. split; [assumption | apply String.eqb_refl].
Qed.

Lemma in_list_false (x : string) (l : list string) :
  in_list x l = false <-> ~ In x l.
Proof.
  rewrite <- in_list_In. destruct (in_list x l); split; congruence.
Qed.

Lemma count_cons (s x : string) (l : list string) :
  count s (x :: l) = if String.eqb s x then S (count s l) else count s l.
Proof. unfold count. simpl. destruct (String.eqb s x); reflexivity. Qed.

Lemma count_zero (s : string) (l : list string) :
  count s l = 0 <-> ~ In s l.
Proof.
  induction l as [ | x l IH].
  - simpl. split; [intros _ [] | reflexivity].
  - rewrite count_cons. simpl. destruct (String.eqb_spec s x) as [E | N].
    + split; [discriminate | intros H; exfalso; apply H; left; congruence].
    + rewrite IH. split; [intros H [E | I]; [congruence | tauto] | tauto].
Qed.

Lemma count_pos (s : string) (l : list string) :
  (0 <? count s l)%nat = true <-> In s l.
Proof.
  rewrite Nat.ltb_lt. destruct (in_dec string_dec s l) as [I | N].
  - split; [tauto | intros _].
    destruct (count s l) eqn:E; [apply count_zero in E; tauto | lia].
  - apply count_zero in N. rewrite N. split; [lia | intros I].
    apply count_zero in N. tauto.
Qed.

Lemma forallb_crm_neutral (l : list string) :
  forallb (fun s => in_list s ["NotApplicable"; "Below10xDL"]) l = true
  <-> Forall crm_neutral l.
Proof.
  rewrite forallb_forall, Forall_forall. unfold crm_neutral.
  split; intros H s Hs; specialize (H s Hs).
  - apply in_list_In in H. simpl in H. intuition congruence.
  - apply in_list_In. simpl. intuition congruence.
Qed.

(** C3: the CRM FinalStatus of an analyte follows, from its per-run status
    list, the first-match precedence: two Fail or more give Fail; exactly
    one Fail gives Needs Investigation; else any Needs Investigation gives
    Needs Investigation; else any OK gives OK; else statuses all in
    {NotApplicable, Below10xDL} give NotApplicable; else NotEvaluated.
    [Fail, Fail, OK] gives Fail, [Fail, OK] gives Needs Investigation and
    [NotApplicable, Below10xDL] gives NotApplicable. *)
Theorem crm_final_status_precedence (statuses : list string) :
  let fails := count "Fail" statuses in
  let r := compute_crm_final_status statuses in
  (2 <= fails -> r = "Fail")
  /\ (fails = 1 -> r = "Needs Investigation")
  /\ (fails = 0 -> In "Needs Investigation" statuses ->
      r = "Needs Investigation")
  /\ (fails = 0 -> ~ In "Needs Investigation" statuses ->
      In "OK" statuses -> r = "OK")
  /\ (fails = 0 -> ~ In "Needs Investigation" statuses ->
      ~ In "OK" statuses -> Forall crm_neutral statuses ->
      r = "NotApplicable")
  /\ (fails = 0 -> ~ In "Needs Investigation" statuses ->
      ~ In "OK" statuses -> ~ Forall crm_neutral statuses ->
      r = "NotEvaluated")
  /\ compute_crm_final_status ["Fail"; "Fail"; "OK"] = "Fail"
  /\ compute_crm_final_status ["Fail"; "OK"] = "Needs Investigation"
  /\ compute_crm_final_status ["NotApplicable"; "Below10xDL"]
     = "NotApplicable".
Proof.
  intros fails r. subst r. unfold compute_crm_final_status.
  fold fails.
  destruct (2 <=? fails)%nat eqn:E2;
    [apply Nat.leb_le in E2 | apply Nat.leb_gt in E2].
  { repeat split; intros; try reflexivity; lia. }
  destruct (fails =? 1)%nat eqn:E1;
    [apply Nat.eqb_eq in E1 | apply Nat.eqb_neq in E1].
  { repeat split; intros; try reflexivity; lia. }
  destruct (0 <? count "Needs Investigation" statuses)%nat eqn:Eni.
  { apply count_pos in Eni.
    repeat split; intros; try reflexivity; try lia; tauto. }
  assert (Nni : ~ In "Needs Investigation" statuses).
  { intros I. apply count_pos in I. congruence. }
  destruct (0 <? count "OK" statuses)%nat eqn:Eok.
  { apply count_pos in Eok.
    repeat split; intros; try reflexivity; try lia; tauto. }
  assert (Nok : ~ In "OK" statuses).
  { intros I. apply count_pos in I. congruence. }
  destruct (forallb _ statuses) eqn:Eall.
  { apply forallb_crm_neutral in Eall.
    repeat split; intros; try reflexivity; try lia; tauto. }
  assert (Nall : ~ Forall crm_neutral statuses).
  { intros F. apply forallb_crm_neutral in F. congruence. }
  repeat split; intros; try reflexivity; try lia; tauto.
Qed.

Lemma crm_final_status_precedence_witness :
  compute_crm_final_status ["Fail"; "OK"; "Fail"; "Fail"] = "Fail"
  /\ compute_crm_final_status ["OK"; "Fail"] = "Needs Investigation"
  /\ compute_crm_final_status ["Below10xDL"; "OK"] = "OK".
Proof.
  split; [ | split].
  - destruct (crm_final_status_precedence ["Fail"; "OK"; "Fail"; "Fail"])
      as (H & _).
    apply H. vm_compute. lia.
  - destruct (crm_final_status_precedence ["OK"; "Fail"]) as (_ & H & _).
    apply H. reflexivity.
  - destruct (crm_final_status_precedence ["Below10xDL"; "OK"])
      as (_ & _ & _ & H & _).
    apply H.
    + reflexivity.
    + simpl. intros [E | [E | []]]; discriminate.
    + simpl. auto.
Defined.


(** *** The final flag *)

Lemma dup_final_status_caution (statuses : list string) :
  In "BDL_Substitution" statuses \/ In "NotEvaluated" statuses ->
  ~ In "Fail_RPD" statuses ->
  compute_dup_final_status statuses = "Needs Investigation".
Proof.
  intros H N. unfold compute_dup_final_status.
  apply in_list_false in N. rewrite N.
  destruct (in_list "BDL_Substitution" statuses) eqn:E; [reflexivity | ].
  destruct H as [H | H]; apply in_list_In in H; [congruence | ].
  rewrite H. reflexivity.
Qed.

(** C1 (what the code does): when the duplicate status list of an analyte
    holds BDL_Substitution or NotEvaluated and no Fail_RPD, the duplicate
    FinalStatus is the string "Needs Investigation"; [final_flag] tests the
    duplicate status only against "Fail", "BDL_Substitution" and
    "NotEvaluated", so with a CRM status that is neither Fail nor Needs
    Investigation and a blank status that is none of Fail, Needs
    Investigation and NotEvaluated, the Final_QC_Flag is Pass, not Needs
    Investigation. *)
Theorem dup_caution_lost_by_final_flag (statuses : list string)
    (crm blank : option string) :
  In "BDL_Substitution" statuses \/ In "NotEvaluated" statuses ->
  ~ In "Fail_RPD" statuses ->
  normalize_status crm <> "Fail" ->
  normalize_status crm <> "Needs Investigation" ->
  normalize_status blank <> "Fail" ->
  normalize_status blank <> "Needs Investigation" ->
  normalize_status blank <> "NotEvaluated" ->
  compute_dup_final_status statuses = "Needs Investigation"
  /\ final_flag crm (Some (compute_dup_final_status statuses)) blank = "Pass".
Proof.
  intros H N C1 C2 B1 B2 B3.
  rewrite (dup_final_status_caution statuses H N). split; [reflexivity | ].
  unfold final_flag. simpl normalize_status at 2.
  apply String.eqb_neq in C1, C2, B1, B2, B3.
  rewrite C1, C2, B1. simpl. rewrite B2, B3. reflexivity.
Qed.

Lemma dup_caution_lost_by_final_flag_witness :
  compute_dup_final_status ["OK"; "BDL_Substitution"] = "Needs Investigation"
  /\ final_flag (Some (compute_crm_final_status ["OK"]))
       (Some (compute_dup_final_status ["OK"; "BDL_Substitution"]))
       (Some "OK") = "Pass".
Proof.
  apply (dup_caution_lost_by_final_flag ["OK"; "BDL_Substitution"]
           (Some (compute_crm_final_status ["OK"])) (Some "OK")).
  - left. simpl. auto.
  - simpl. intros [E | [E | []]]; discriminate.
  - discriminate.
  - discriminate.
  - discriminate.
  - discriminate.
  - discriminate.
Defined.

(** The same through the whole summary: a CRM pair that is OK, a duplicate
    pair with one censored side (BDL_Substitution) and a blank that is OK
    give one summary row whose duplicate status is Needs Investigation and
    whose flag is Pass. *)
Example summary_flag_of_censored_duplicate :
  option_map (map (fun r => (option_map Duplicate_Status (s_dup r),
                             Final_QC_Flag r)))
    (build_qc_summary [Examples.crm_au] [Examples.dup_au_censored]
       [Examples.blank_au])
  = Some [(Some "Needs Investigation", "Pass")].
Proof. vm_compute. reflexivity. Qed.


(** *** Group keys and the left join *)

Lemma key_eqb_eq (a b : key) : key_eqb a b = true <-> a = b.
Proof.
  destruct a as [a1 a2], b as [b1 b2]. unfold key_eqb. simpl.
  rewrite andb_true_iff, !String.eqb_eq.
  split; [intros [-> ->]; reflexivity | intros E; injection E; auto].
Qed.

Lemma key_eqb_refl (k : key) : key_eqb k k = true.
Proof. now apply key_eqb_eq. Qed.

Lemma existsb_key_In (k : key) (l : list key) :
  existsb (key_eqb k) l = true <-> In k l.
Proof.
  rewrite existsb_exists. split.
  - intros (x & Hx & E). apply key_eqb_eq in E. now subst.
  - intros H. exists k. split; [assumption | apply key_eqb_refl].
Qed.

Lemma insert_sorted_perm (k : key) (l : list key) :
  Permutation (insert_sorted k l) (k :: l).
Proof.
  induction l as [ | h t IH]; simpl.
  - reflexivity.
  - destruct (key_leb k h); [reflexivity | ].
    rewrite IH. apply perm_swap.
Qed.

Lemma add_key_In (k x : key) (l : list key) :
  In x (add_key k l) <-> x = k \/ In x l.
Proof.
  unfold add_key. destruct (existsb (key_eqb k) l) eqn:E.
  - apply existsb_key_In in E. split; [tauto | intros [-> | H]; assumption].
  - split; intros H.
    + apply (Permutation_in _ (insert_sorted_perm k l)) in H.
      simpl in H. intuition.
    + apply (Permutation_in _ (Permutation_sym (insert_sorted_perm k l))).
      simpl. intuition.
Qed.

Lemma add_key_NoDup (k : key) (l : list key) :
  NoDup l -> NoDup (add_key k l).
Proof.
  intros H. unfold add_key. destruct (existsb (key_eqb k) l) eqn:E.
  - assumption.
  - apply (Permutation_NoDup (Permutation_sym (insert_sorted_perm k l))).
    constructor; [ | assumption].
    intros I. apply existsb_key_In in I. congruence.
Qed.

Lemma group_keys_In (k : key) (ks : list key) :
  In k (group_keys ks) <-> In k ks.
Proof.
  induction ks as [ | x ks IH]; simpl; [tauto | ].
  rewrite add_key_In, IH. intuition.
Qed.

Lemma group_keys_NoDup (ks : list key) : NoDup (group_keys ks).
Proof.
  induction ks as [ | x ks IH]; simpl;
    [constructor | now apply add_key_NoDup].
Qed.

Lemma group_apply_keys {A B : Type} (key_of : A -> key)
    (reduce : list A -> B) (l : list A) :
  map fst (group_apply key_of reduce l) = group_keys (map key_of l).
Proof.
  unfold group_apply. rewrite map_map. simpl. apply map_id.
Qed.

Lemma rows_of_app {A : Type} (k : key) (l1 l2 : list (key * A)) :
  rows_of k (l1 ++ l2)%list = rows_of k l1 + rows_of k l2.
Proof. unfold rows_of. rewrite filter_app, length_app. reflexivity. Qed.

Lemma rows_of_cons {A : Type} (k : key) (a : key * A) (l : list (key * A)) :
  rows_of k (a :: l) = (if key_eqb (fst a) k then 1 else 0) + rows_of k l.
Proof. unfold rows_of. simpl. destruct (key_eqb (fst a) k); reflexivity. Qed.

Lemma rows_of_absent {A : Type} (k : key) (l : list (key * A)) :
  ~ In k (map fst l) -> rows_of k l = 0.
Proof.
  induction l as [ | a l IH]; intros N; [reflexivity | ].
  rewrite rows_of_cons. simpl in N.
  destruct (key_eqb (fst a) k) eqn:E.
  - apply key_eqb_eq in E. tauto.
  - rewrite IH; tauto.
Qed.

Lemma rows_of_present {A : Type} (k : key) (l : list (key * A)) :
  NoDup (map fst l) -> In k (map fst l) -> rows_of k l = 1.
Proof.
  induction l as [ | a l IH]; simpl; intros D I; [contradiction | ].
  inversion D as [ | ? ? Na Dl]; subst. rewrite rows_of_cons.
  destruct (key_eqb (fst a) k) eqn:E.
  - apply key_eqb_eq in E. subst k. rewrite rows_of_absent; auto.
  - destruct I as [I | I]; [subst k; rewrite key_eqb_refl in E; discriminate | ].
    rewrite IH; auto.
Qed.

Lemma rows_of_positive {A : Type} (k : key) (l : list (key * A)) :
  0 < rows_of k l -> In k (map fst l).
Proof.
  induction l as [ | a l IH]; [unfold rows_of; simpl; lia | ].
  rewrite rows_of_cons. simpl. destruct (key_eqb (fst a) k) eqn:E.
  - intros _. left. now apply key_eqb_eq.
  - intros H. right. apply IH. lia.
Qed.

Lemma rows_of_same_key {A B : Type} (k k' : key) (f : A -> B) (l : list A) :
  rows_of k (map (fun r => (k', f r)) l)
  = if key_eqb k' k then List.length l else 0.
Proof.
  induction l as [ | a l IH]; simpl.
  - destruct (key_eqb k' k); reflexivity.
  - rewrite rows_of_cons, IH. simpl. destruct (key_eqb k' k); reflexivity.
Qed.

Lemma left_join_cons {L R : Type} (l : key * L) (left : list (key * L))
    (right : list (key * R)) :
  left_join (l :: left) right
  = (match filter (fun r => key_eqb (fst r) (fst l)) right with
     | [] => [(fst l, (snd l, None))]
     | matches => map (fun r => (fst l, (snd l, Some (snd r)))) matches
     end ++ left_join left right)%list.
Proof. reflexivity. Qed.

Lemma joined_block_rows_of {L R : Type} (k : key) (l : key * L)
    (right : list (key * R)) :
  rows_of k
    match filter (fun r => key_eqb (fst r) (fst l)) right with
    | [] => [(fst l, (snd l, @None R))]
    | matches => map (fun r => (fst l, (snd l, Some (snd r)))) matches
    end
  = (if key_eqb (fst l) k then 1 else 0) * Nat.max 1 (rows_of k right).
Proof.
  destruct (key_eqb (fst l) k) eqn:E.
  - apply key_eqb_eq in E. subst k. unfold rows_of at 2.
    destruct (filter _ right) as [ | m ms].
    + rewrite rows_of_cons. simpl fst. rewrite key_eqb_refl. reflexivity.
    + rewrite rows_of_same_key, key_eqb_refl. simpl. lia.
  - destruct (filter _ right) as [ | m ms].
    + rewrite rows_of_cons. simpl fst. rewrite E. reflexivity.
    + rewrite rows_of_same_key, E. reflexivity.
Qed.

(** The left join repeats a left row once per matching right row, and keeps
    it once when there is none. *)
Lemma left_join_rows_of {L R : Type} (k : key) (left : list (key * L))
    (right : list (key * R)) :
  rows_of k (left_join left right)
  = rows_of k left * Nat.max 1 (rows_of k right).
Proof.
  induction left as [ | l left IH]; [reflexivity | ].
  rewrite left_join_cons, rows_of_app, IH, joined_block_rows_of, rows_of_cons.
  lia.
Qed.

Lemma summary_rows_of_map (k : key)
    (l : list (key * ((crm_summary * option dup_summary)
                      * option blank_summary))) :
  summary_rows_of k (map summary_row_of l) = rows_of k l.
Proof.
  unfold summary_rows_of, rows_of.
  induction l as [ | a l IH]; [reflexivity | ].
  simpl. destruct (key_eqb (fst a) k); simpl; rewrite IH; reflexivity.
Qed.

Lemma group_apply_nonempty {A B : Type} (key_of : A -> key)
    (reduce : list A -> B) (l : list A) :
  l <> [] -> group_apply key_of reduce l <> [].
Proof.
  intros N E. destruct l as [ | a l]; [congruence | ].
  assert (I : In (key_of a) (map fst (group_apply key_of reduce (a :: l)))).
  { rewrite group_apply_keys. apply group_keys_In. left. reflexivity. }
  rewrite E in I. exact I.
Qed.

Lemma crm_small_rows_of (k : key) (crm : list CrmWide.crm_record) :
  rows_of k (rows (crm_small crm))
  = if existsb (key_eqb k) (map crm_key crm) then 1 else 0.
Proof.
  assert (K : map fst (rows (crm_small crm)) = group_keys (map crm_key crm)).
  { destruct crm; [reflexivity | apply group_apply_keys]. }
  destruct (existsb (key_eqb k) (map crm_key crm)) eqn:E.
  - apply existsb_key_In in E. apply rows_of_present; rewrite K.
    + apply group_keys_NoDup.
    + now apply group_keys_In.
  - apply rows_of_absent. rewrite K, group_keys_In. intros I.
    apply existsb_key_In in I. congruence.
Qed.

Lemma dup_small_rows_of (k : key) (dup : list DuplicateWide.dup_record) :
  rows_of k (rows (dup_small dup)) <= 1.
Proof.
  assert (K : map fst (rows (dup_small dup)) = group_keys (map dup_key dup))
    by apply group_apply_keys.
  destruct (existsb (key_eqb k) (map dup_key dup)) eqn:E.
  - apply existsb_key_In in E. rewrite rows_of_present; [lia | | ]; rewrite K.
    + apply group_keys_NoDup.
    + now apply group_keys_In.
  - rewrite rows_of_absent; [lia | ]. rewrite K, group_keys_In. intros I.
    apply existsb_key_In in I. congruence.
Qed.

Lemma blank_small_rows_of (k : key) (blank : list BlankWide.blank_record) :
  rows_of k (rows (blank_small blank))
  = List.length (filter (fun r => key_eqb (blank_key r) k) blank).
Proof.
  unfold rows_of. simpl. induction blank as [ | b blank IH]; [reflexivity | ].
  simpl. destruct (key_eqb (blank_key b) k); simpl; rewrite IH; reflexivity.
Qed.

(** With the three module tables non-empty, the summary is the CRM table's
    groups left-joined with the duplicate groups and the blank rows. *)
Lemma build_qc_summary_rows (crm : list CrmWide.crm_record)
    (dup : list DuplicateWide.dup_record)
    (blank : list BlankWide.blank_record) :
  crm <> [] -> dup <> [] -> blank <> [] ->
  build_qc_summary crm dup blank
  = Some (map summary_row_of
            (left_join (left_join (rows (crm_small crm)) (rows (dup_small dup)))
                       (rows (blank_small blank)))).
Proof.
  intros Hc Hd Hb. unfold build_qc_summary, safe_merge.
  pose proof (group_apply_nonempty dup_key reduce_dup dup Hd) as Nd.
  change (group_apply dup_key reduce_dup dup) with (rows (dup_small dup)) in Nd.
  destruct (rows (dup_small dup)) as [ | d ds] eqn:Ed; [congruence | ].
  destruct blank as [ | b bs]; [congruence | ].
  destruct crm as [ | c cs]; [congruence | ].
  reflexivity.
Qed.

Lemma left_join_In {L R : Type} (left : list (key * L))
    (right : list (key * R)) (x : key * (L * option R)) :
  In x (left_join left right) ->
  In (fst x, fst (snd x)) left
  /\ match snd (snd x) with
     | None => ~ In (fst x) (map fst right)
     | Some r => In (fst x, r) right
     end.
Proof.
  induction left as [ | l left IH]; [intros [] | ].
  rewrite left_join_cons, in_app_iff. intros [H | H].
  - destruct (filter (fun r => key_eqb (fst r) (fst l)) right)
      as [ | m ms] eqn:F.
    + destruct H as [<- | []]. simpl. split.
      * left. destruct l; reflexivity.
      * intros I. apply in_map_iff in I. destruct I as (r & Er & Ir).
        assert (Fr : In r (filter (fun r => key_eqb (fst r) (fst l)) right)).
        { apply filter_In. split; [assumption | ]. now apply key_eqb_eq. }
        rewrite F in Fr. exact Fr.
    + apply in_map_iff in H. destruct H as (r & <- & Ir). simpl. split.
      * left. destruct l; reflexivity.
      * rewrite <- F in Ir. apply filter_In in Ir. destruct Ir as (Ir & E).
        apply key_eqb_eq in E. rewrite <- E. destruct r; exact Ir.
  - destruct (IH H) as (I1 & I2). split; [right; exact I1 | exact I2].
Qed.

(** When a module table is empty, or has no CRM row at all, the selection
    of the output columns fails: the columns of that module are not in the
    merged table. *)
Lemma build_qc_summary_empty_module (crm : list CrmWide.crm_record)
    (dup : list DuplicateWide.dup_record)
    (blank : list BlankWide.blank_record) :
  crm = [] \/ dup = [] \/ blank = [] ->
  build_qc_summary crm dup blank = None.
Proof.
  intros H. unfold build_qc_summary, safe_merge.
  destruct (rows (dup_small dup)) as [ | d ds] eqn:Ed.
  - destruct blank as [ | b bs], crm as [ | c cs]; reflexivity.
  - destruct dup as [ | d0 dup]; [discriminate Ed | ].
    destruct H as [-> | [H | ->]]; [ | discriminate H | ].
    + destruct blank as [ | b bs]; reflexivity.
    + destruct crm as [ | c cs]; reflexivity.
Qed.

(** C2 (as amended): with the three module tables non-empty, the summary
    is a left join anchored on the CRM table.  Every (Analyte, Unit) pair of
    the CRM table has a row in the summary, exactly one when the blank table
    holds at most one row for the pair; a pair that is in the duplicate or
    blank table only has no row; and a duplicate or blank table without a
    row for a pair of the CRM table leaves its fields empty in that pair's
    row. *)
Theorem summary_rows_follow_crm_table (crm : list CrmWide.crm_record)
    (dup : list DuplicateWide.dup_record)
    (blank : list BlankWide.blank_record) :
  crm <> [] -> dup <> [] -> blank <> [] ->
  exists summary,
    build_qc_summary crm dup blank = Some summary
    /\ (forall k, In k (map crm_key crm) ->
          1 <= summary_rows_of k summary
          /\ (List.length (filter (fun r => key_eqb (blank_key r) k) blank) <= 1 ->
              summary_rows_of k summary = 1))
    /\ (forall k, ~ In k (map crm_key crm) -> summary_rows_of k summary = 0)
    /\ (forall r, In r summary ->
          (~ In (s_key r) (map dup_key dup) -> s_dup r = None)
          /\ (~ In (s_key r) (map blank_key blank) -> s_blank r = None)).
Proof.
  intros Hc Hd Hb. eexists. split; [now apply build_qc_summary_rows | ].
  assert (Count : forall k,
    summary_rows_of k
      (map summary_row_of
         (left_join (left_join (rows (crm_small crm)) (rows (dup_small dup)))
                    (rows (blank_small blank))))
    = (if existsb (key_eqb k) (map crm_key crm) then 1 else 0)
      * Nat.max 1
          (List.length (filter (fun r => key_eqb (blank_key r) k) blank))).
  { intros k.
    rewrite summary_rows_of_map, !left_join_rows_of, crm_small_rows_of,
      blank_small_rows_of.
    pose proof (dup_small_rows_of k dup) as D.
    replace (Nat.max 1 (rows_of k (rows (dup_small dup)))) with 1 by lia.
    lia. }
  split; [ | split].
  - intros k I. rewrite Count. apply existsb_key_In in I. rewrite I.
    split; lia.
  - intros k N. rewrite Count.
    destruct (existsb (key_eqb k) (map crm_key crm)) eqn:E; [ | reflexivity].
    apply existsb_key_In in E. contradiction.
  - intros r I. apply in_map_iff in I. destruct I as (x & <- & Ix).
    apply left_join_In in Ix. destruct Ix as (I1 & I2).
    apply left_join_In in I1. destruct I1 as (_ & I3). simpl in I3.
    unfold summary_row_of. simpl. split; intros N.
    + destruct (snd (fst (snd x))) as [d | ]; [ | reflexivity].
      exfalso. apply N.
      apply (in_map fst) in I3. simpl in I3.
      change (rows (dup_small dup)) with (group_apply dup_key reduce_dup dup)
        in I3.
      rewrite group_apply_keys in I3. exact (proj1 (group_keys_In _ _) I3).
    + destruct (snd (snd x)) as [b | ]; [ | reflexivity].
      exfalso. apply N.
      apply (in_map fst) in I2. simpl in I2. rewrite map_map in I2.
      exact I2.
Qed.

Lemma summary_rows_follow_crm_table_witness :
  exists summary,
    build_qc_summary [Examples.crm_au] [Examples.dup_cu] [Examples.blank_au]
    = Some summary
    /\ summary_rows_of ("Au", "ppm") summary = 1
    /\ summary_rows_of ("Cu", "ppm") summary = 0.
Proof.
  destruct (summary_rows_follow_crm_table
              [Examples.crm_au] [Examples.dup_cu] [Examples.blank_au])
    as (summary & E & P & A & _); try discriminate.
  exists summary. split; [exact E | split].
  - apply P.
    + left. reflexivity.
    + vm_compute. lia.
  - apply A. intros [H | []]. vm_compute in H. discriminate.
Defined.

(** C2 (as stated) fails: copper is in the duplicate table only, and the
    summary has no row for it. *)
Lemma summary_misses_duplicate_only_analyte :
  ~ (forall crm dup blank k,
       In k (map crm_key crm) \/ In k (map dup_key dup)
       \/ In k (map blank_key blank) ->
       exists summary,
         build_qc_summary crm dup blank = Some summary
         /\ summary_rows_of k summary = 1).
Proof.
  intros H.
  destruct (H [Examples.crm_au] [Examples.dup_cu] [Examples.blank_au]
              ("Cu", "ppm")) as (summary & E & C).
  - right. left. left. reflexivity.
  - vm_compute in E. injection E as <-. vm_compute in C. discriminate.
Qed.

End QcSummaryFacts.

(** ** The blank evaluator: [blank_wide.py] *)

Module BlankWideFacts.

Import BlankWide.
Import Vocabulary.

Lemma is_bdl_censored (raw : list cell) :
  existsb is_bdl raw = true <-> exists s, In (CStr s) raw /\ censored s.
Proof.
  rewrite existsb_exists. split.
  - intros (c & I & B). destruct c as [ | x | s]; try discriminate.
    exists s. split; assumption.
  - intros (s & I & C). exists (CStr s). split; assumption.
Qed.

Lemma string_cell_not_all_missing (raw : list cell) (s : string) :
  In (CStr s) raw -> forallb pd_isna raw = false.
Proof.
  intros I. destruct (forallb pd_isna raw) eqn:E; [ | reflexivity].
  rewrite forallb_forall in E. specialize (E _ I). discriminate.
Qed.

Lemma mean_empty : PrimFloat.is_nan (mean []) = true.
Proof. vm_compute. reflexivity. Qed.

Section WithFloatParser.

Variable py_float : string -> option float.

Lemma carries_no_number_numeric (c : cell) (dl : float) (rule : bdl_rule) :
  carries_no_number py_float c ->
  is_bdl c = false
  /\ PrimFloat.is_nan (to_numeric_with_bdl py_float c dl rule) = true.
Proof.
  unfold to_numeric_with_bdl. intros [M | (s & -> & N & P)].
  - rewrite M. split; [ | reflexivity].
    destruct c as [ | x | s]; try reflexivity. discriminate.
  - assert (B : is_bdl (CStr s) = false).
    { unfold censored in N. simpl. now destruct (PyStr.startswith _ _). }
    rewrite B. simpl pd_isna. cbv iota. rewrite P. split; reflexivity.
Qed.

Lemma no_number_column (raw : list cell) (dl : float) (rule : bdl_rule) :
  Forall (carries_no_number py_float) raw ->
  existsb is_bdl raw = false
  /\ dropna (map (fun x => to_numeric_with_bdl py_float x dl rule) raw) = [].
Proof.
  induction 1 as [ | c raw Hc _ (IH1 & IH2)]; [split; reflexivity | ].
  destruct (carries_no_number_numeric c dl rule Hc) as (B & N).
  simpl. unfold dropna in *. simpl. rewrite B, N, IH1, IH2.
  split; reflexivity.
Qed.

Lemma blank_results_In (df : DataFrame) (metadata : list analyte_meta)
    (tolerance_factor : float) (rule : bdl_rule) (m : analyte_meta) :
  In m metadata -> has_column df (col_name m) = true ->
  In (blank_column py_float m (column (col_name m) (blank_rows df))
        tolerance_factor rule)
     (blank_results py_float df metadata tolerance_factor rule).
Proof.
  intros I C. induction metadata as [ | m' rest IH]; [contradiction | ].
  simpl. destruct I as [-> | I].
  - rewrite C. left. reflexivity.
  - destruct (has_column df (col_name m')); [right | ]; now apply IH.
Qed.

(** Every analyte of the metadata whose column is in the table has its
    record in the result, when there is a blank row. *)
Lemma compute_blank_qc_emits (df : DataFrame) (metadata : list analyte_meta)
    (tolerance_factor : float) (rule : bdl_rule) (m : analyte_meta) :
  In m metadata -> has_column df (col_name m) = true ->
  blank_rows df <> [] ->
  exists results,
    compute_blank_qc py_float df metadata tolerance_factor rule = Some results
    /\ In (blank_column py_float m (column (col_name m) (blank_rows df))
             tolerance_factor rule) results.
Proof.
  intros I C N. unfold compute_blank_qc.
  pose proof (blank_results_In df metadata tolerance_factor rule m I C) as R.
  destruct (blank_rows df) as [ | r rs] eqn:E; [congruence | ].
  rewrite <- E in *.
  destruct (blank_results py_float df metadata tolerance_factor rule)
    as [ | x xs]; [contradiction | ].
  eexists. split; [reflexivity | exact R].
Qed.

(** C4: a blank column that holds at least one censored cell (a string whose
    stripped form starts with [<]) has the Blank Status OK, whatever the
    other cells of the column and whatever tolerance_factor; and the record
    is in the table [compute_blank_qc] returns for every data frame in which
    this is the analyte's column over the blank rows. *)
Theorem blank_censored_is_ok (m : analyte_meta) (raw : list cell)
    (tolerance_factor : float) (rule : bdl_rule) (s : string) :
  In (CStr s) raw -> censored s ->
  Blank_Status (blank_column py_float m raw tolerance_factor rule) = "OK"
  /\ forall df metadata,
       In m metadata -> has_column df (col_name m) = true ->
       raw = column (col_name m) (blank_rows df) ->
       exists results,
         compute_blank_qc py_float df metadata tolerance_factor rule
         = Some results
         /\ In (blank_column py_float m raw tolerance_factor rule) results.
Proof.
  intros I C. split.
  - unfold blank_column.
    rewrite (string_cell_not_all_missing raw s I).
    assert (B : existsb is_bdl raw = true)
      by (apply is_bdl_censored; exists s; split; assumption).
    simpl. rewrite B. reflexivity.
  - intros df metadata Im Hc ->.
    apply compute_blank_qc_emits; try assumption.
    intros E. rewrite E in I. exact I.
Qed.

(** C8 (what the code does): in a blank column whose cells carry no number
    (each is absent, or a string that is not censored and that [float]
    rejects), the status is NotEvaluated only when every cell is absent; as
    soon as one cell is such a string the average is NaN, both comparisons
    with it are false, and the status is Fail. *)
Theorem blank_without_numbers_status (m : analyte_meta) (raw : list cell)
    (tolerance_factor : float) (rule : bdl_rule) :
  Forall (carries_no_number py_float) raw ->
  Blank_Status (blank_column py_float m raw tolerance_factor rule)
  = if forallb pd_isna raw then "NotEvaluated" else "Fail".
Proof.
  intros H. unfold blank_column.
  destruct (forallb pd_isna raw); [reflexivity | ].
  destruct (no_number_column raw (m_dl m) rule H) as (B & D).
  simpl. rewrite B, D.
  replace (mean []) with nan by (vm_compute; reflexivity).
  rewrite !FloatFacts.ltb_nan_l. reflexivity.
Qed.

End WithFloatParser.

Lemma blank_censored_is_ok_witness :
  Blank_Status
    (blank_column Examples.decimal_float
       {| m_analyte := "Au"; m_unit := "ppm"; m_dl := 0.1%float |}
       [CStr "< 0.1"; CStr "5.0"] 3%float (RuleStr "half")) = "OK".
Proof.
  apply (blank_censored_is_ok Examples.decimal_float
           {| m_analyte := "Au"; m_unit := "ppm"; m_dl := 0.1%float |}
           [CStr "< 0.1"; CStr "5.0"] 3%float (RuleStr "half") "< 0.1").
  - left. reflexivity.
  - reflexivity.
Defined.

Lemma blank_without_numbers_status_witness :
  Blank_Status
    (blank_column Examples.decimal_float
       {| m_analyte := "Au"; m_unit := "ppm"; m_dl := 0.1%float |}
       [CNone; CStr "ND"] 3%float (RuleStr "half")) = "Fail".
Proof.
  apply (blank_without_numbers_status Examples.decimal_float
           {| m_analyte := "Au"; m_unit := "ppm"; m_dl := 0.1%float |}
           [CNone; CStr "ND"] 3%float (RuleStr "half")).
  constructor; [left; reflexivity | ].
  constructor; [ | constructor].
  right. exists "ND". split; [reflexivity | ].
  split; [ | reflexivity].
  unfold censored. vm_compute. discriminate.
Defined.

End BlankWideFacts.

(** ** The duplicate evaluator: [duplicate_wide.py] *)

Module DuplicateWideFacts.

Import DuplicateWide.
Import Vocabulary.

Lemma is_bdl_present (x : cell) : is_bdl x = true -> pd_isna x = false.
Proof. destruct x; simpl; congruence. Qed.

Section WithFloatParser.

Variable py_float : string -> option float.

(** Both cells present and not censored: the record follows the 10 x DL
    test alone. *)
Lemma detected_pair_low (base : option string) (m : analyte_meta)
    (rpd_tolerance : float) (orig dup : cell) :
  pd_isna orig = false -> pd_isna dup = false ->
  is_bdl orig = false -> is_bdl dup = false ->
  above_10x (m_dl m) (to_numeric_with_bdl py_float orig (m_dl m))
  && above_10x (m_dl m) (to_numeric_with_bdl py_float dup (m_dl m)) = false ->
  let r := pair_record py_float base m rpd_tolerance orig dup in
  Status r = "Below10xDL" /\ RPD r = CStr "" /\ Above10xDL r = false.
Proof.
  unfold above_10x. intros Po Pd Bo Bd A. unfold pair_record. cbv zeta.
  rewrite Po, Pd, Bo, Bd, A. cbn. repeat split; reflexivity.
Qed.

Lemma detected_pair_high (base : option string) (m : analyte_meta)
    (rpd_tolerance : float) (orig dup : cell) :
  pd_isna orig = false -> pd_isna dup = false ->
  is_bdl orig = false -> is_bdl dup = false ->
  above_10x (m_dl m) (to_numeric_with_bdl py_float orig (m_dl m)) = true ->
  above_10x (m_dl m) (to_numeric_with_bdl py_float dup (m_dl m)) = true ->
  let r := pair_record py_float base m rpd_tolerance orig dup in
  let rpd := rpd_of (to_numeric_with_bdl py_float orig (m_dl m))
                    (to_numeric_with_bdl py_float dup (m_dl m)) in
  RPD r = CNum rpd
  /\ Status r
     = if negb (PrimFloat.is_nan rpd) && (rpd_tolerance <? rpd)%float
       then "Fail_RPD"
       else if negb (PrimFloat.is_nan rpd) && (rpd <=? rpd_tolerance)%float
            then "OK" else "".
Proof.
  unfold above_10x. intros Po Pd Bo Bd Ao Ad. unfold pair_record. cbv zeta.
  rewrite Po, Pd, Bo, Bd, Ao, Ad. cbn. split; reflexivity.
Qed.

(** C5: for a matched pair whose raw cells are both present, not censored
    and numeric: when both values are at most 10 x DL the Status is
    Below10xDL and the RPD field is the empty string; when both exceed
    10 x DL the RPD field is |orig - dup| / ((orig + dup) / 2) x 100 and,
    that RPD and the tolerance being numbers, the Status is OK when the RPD
    is at most rpd_tolerance and Fail_RPD otherwise. *)
Theorem detected_pair_status (base : option string) (m : analyte_meta)
    (rpd_tolerance : float) (orig dup : cell) :
  pd_isna orig = false -> pd_isna dup = false ->
  is_bdl orig = false -> is_bdl dup = false ->
  let o := to_numeric_with_bdl py_float orig (m_dl m) in
  let d := to_numeric_with_bdl py_float dup (m_dl m) in
  let r := pair_record py_float base m rpd_tolerance orig dup in
  (within_10x (m_dl m) o = true -> within_10x (m_dl m) d = true ->
   Status r = "Below10xDL" /\ RPD r = CStr "")
  /\ (above_10x (m_dl m) o = true -> above_10x (m_dl m) d = true ->
      RPD r = CNum (rpd_of o d)
      /\ (PrimFloat.is_nan (rpd_of o d) = false ->
          PrimFloat.is_nan rpd_tolerance = false ->
          Status r
          = if (rpd_of o d <=? rpd_tolerance)%float then "OK"
            else "Fail_RPD")).
Proof.
  intros Po Pd Bo Bd o d r. split.
  - unfold within_10x. intros Lo Ld.
    apply FloatFacts.leb_true_ltb_false in Lo.
    destruct (detected_pair_low base m rpd_tolerance orig dup Po Pd Bo Bd)
      as (S & R & _).
    + unfold above_10x. fold o. rewrite Lo. reflexivity.
    + split; assumption.
  - intros Ao Ad.
    destruct (detected_pair_high base m rpd_tolerance orig dup
                Po Pd Bo Bd Ao Ad) as (R & S).
    split; [exact R | ].
    intros Nr Nt. subst r. rewrite S. fold o d. rewrite Nr. cbn [negb andb].
    destruct (rpd_of o d <=? rpd_tolerance)%float eqn:L.
    + rewrite (FloatFacts.leb_true_ltb_false _ _ L). reflexivity.
    + rewrite (FloatFacts.leb_false_ltb_true _ _ Nr Nt L). reflexivity.
Qed.

(** C9: for a matched pair whose raw cells are both present and not
    censored, when exactly one of the two values exceeds 10 x DL the Status
    is Below10xDL and the RPD field is the empty string; so it is whenever
    the two values do not both exceed 10 x DL. *)
Theorem mixed_pair_is_below_10x (base : option string) (m : analyte_meta)
    (rpd_tolerance : float) (orig dup : cell) :
  pd_isna orig = false -> pd_isna dup = false ->
  is_bdl orig = false -> is_bdl dup = false ->
  let o := to_numeric_with_bdl py_float orig (m_dl m) in
  let d := to_numeric_with_bdl py_float dup (m_dl m) in
  let r := pair_record py_float base m rpd_tolerance orig dup in
  (above_10x (m_dl m) o <> above_10x (m_dl m) d ->
   Status r = "Below10xDL" /\ RPD r = CStr "")
  /\ (above_10x (m_dl m) o && above_10x (m_dl m) d = false ->
      Status r = "Below10xDL" /\ RPD r = CStr "").
Proof.
  intros Po Pd Bo Bd o d r.
  assert (G : above_10x (m_dl m) o && above_10x (m_dl m) d = false ->
              Status r = "Below10xDL" /\ RPD r = CStr "").
  { intros A.
    destruct (detected_pair_low base m rpd_tolerance orig dup Po Pd Bo Bd A)
      as (S & R & _). split; assumption. }
  split; [ | exact G].
  intros X. apply G.
  destruct (above_10x (m_dl m) o), (above_10x (m_dl m) d);
    try reflexivity. congruence.
Qed.

(** One side censored, the other present and not censored. *)
Lemma censored_pair_record (base : option string) (m : analyte_meta)
    (rpd_tolerance : float) (x other : cell) :
  is_bdl x = true -> pd_isna other = false -> is_bdl other = false ->
  (let r := pair_record py_float base m rpd_tolerance x other in
   Status r = "BDL_Substitution"
   /\ RPD r = CNum (rpd_of (m_dl m / 2)%float
                           (to_numeric_with_bdl py_float other (m_dl m))))
  /\ (let r := pair_record py_float base m rpd_tolerance other x in
      Status r = "BDL_Substitution"
      /\ RPD r = CNum (rpd_of (to_numeric_with_bdl py_float other (m_dl m))
                              (m_dl m / 2)%float)).
Proof.
  intros Bx Po Bo. pose proof (is_bdl_present x Bx) as Px.
  assert (N : to_numeric_with_bdl py_float x (m_dl m) = (m_dl m / 2)%float).
  { unfold to_numeric_with_bdl. rewrite Px, Bx. reflexivity. }
  split; unfold pair_record; cbv zeta; rewrite Px, Po, Bx, Bo, N;
    destruct (10 * m_dl m <? m_dl m / 2)%float,
      (10 * m_dl m <? to_numeric_with_bdl py_float other (m_dl m))%float;
    cbn; split; reflexivity.
Qed.

(** C6 (as amended): the Blank Evaluator gives a censored cell the proxy
    substitute(DL, r) of the batch rule r: DL/2 for half, DL/sqrt 2 for
    sqrt2, 0 for zero, DL for dl.  The Duplicate Evaluator takes no rule:
    it gives a censored cell the proxy DL/2, the value of
    substitute(DL, half), whatever rule the batch is configured with, and
    its BDL_Substitution RPD is computed with DL/2 for the censored side.
    The CRM Evaluator substitutes nothing: a qualified cell is missing. *)
Theorem censored_proxy_by_evaluator (x : cell) (dl : float) :
  is_bdl x = true ->
  (forall rule,
     BlankWide.to_numeric_with_bdl py_float x dl rule
     = BlankWide.bdl_substitution dl rule)
  /\ BlankWide.bdl_substitution dl (BlankWide.RuleStr "half") = (dl / 2)%float
  /\ BlankWide.bdl_substitution dl (BlankWide.RuleStr "sqrt2")
     = (dl / PrimFloat.sqrt 2)%float
  /\ BlankWide.bdl_substitution dl (BlankWide.RuleStr "zero") = 0%float
  /\ BlankWide.bdl_substitution dl (BlankWide.RuleStr "dl") = dl
  /\ to_numeric_with_bdl py_float x dl
     = BlankWide.bdl_substitution dl (BlankWide.RuleStr "half")
  /\ (forall base m rpd_tolerance other,
        m_dl m = dl -> pd_isna other = false -> is_bdl other = false ->
        Status (pair_record py_float base m rpd_tolerance x other)
        = "BDL_Substitution"
        /\ RPD (pair_record py_float base m rpd_tolerance x other)
           = CNum (rpd_of (dl / 2)%float
                          (to_numeric_with_bdl py_float other dl))
        /\ Status (pair_record py_float base m rpd_tolerance other x)
           = "BDL_Substitution"
        /\ RPD (pair_record py_float base m rpd_tolerance other x)
           = CNum (rpd_of (to_numeric_with_bdl py_float other dl)
                          (dl / 2)%float))
  /\ (forall pd_numeric s,
        CrmWide.is_qualifier (PyStr.strip s) = true ->
        PrimFloat.is_nan (CrmWide.clean pd_numeric (CStr s)) = true).
Proof.
  intros Bx. pose proof (is_bdl_present x Bx) as Px.
  split.
  { intros rule. unfold BlankWide.to_numeric_with_bdl. rewrite Px.
    change (BlankWide.is_bdl x) with (is_bdl x). rewrite Bx. reflexivity. }
  do 4 (split; [reflexivity | ]).
  split.
  { unfold to_numeric_with_bdl. rewrite Px, Bx. reflexivity. }
  split.
  { intros base m rpd_tolerance other <- Po Bo.
    destruct (censored_pair_record base m rpd_tolerance x other Bx Po Bo)
      as ((S1 & R1) & (S2 & R2)).
    repeat split; assumption. }
  intros pd_numeric s Q. simpl. rewrite Q. reflexivity.
Qed.

(** *** Pairing *)

Lemma base_key_eqb_eq (a b : option string) : key_eqb a b = true <-> a = b.
Proof.
  destruct a as [s | ], b as [t | ]; simpl.
  - rewrite String.eqb_eq. split; congruence.
  - split; discriminate.
  - split; discriminate.
  - split; reflexivity.
Qed.

Lemma filter_filter {A : Type} (f g : A -> bool) (l : list A) :
  filter f (filter g l) = filter (fun a => g a && f a) l.
Proof.
  induction l as [ | a l IH]; [reflexivity | ].
  simpl. destruct (g a); simpl; [destruct (f a) | ]; rewrite IH; reflexivity.
Qed.

Lemma filter_map_length {A B : Type} (f : A -> B) (g : B -> bool)
    (l : list A) :
  List.length (filter g (map f l))
  = List.length (filter (fun a => g (f a)) l).
Proof.
  induction l as [ | a l IH]; [reflexivity | ].
  simpl. destruct (g (f a)); simpl; rewrite IH; reflexivity.
Qed.

(** A row whose QC_Type is Duplicate_Orig or Duplicate_Dup passes the
    filter on "Duplicate". *)
Lemma cell_is_contains (t : string) (c : cell) :
  PyStr.contains "Duplicate" t = true ->
  cell_is t c = true -> str_contains "Duplicate" c = true.
Proof.
  intros C. destruct c as [ | x | s]; simpl; try discriminate.
  intros E. apply String.eqb_eq in E. now subst.
Qed.

Lemma typed_rows (t : string) (df : DataFrame) :
  PyStr.contains "Duplicate" t = true ->
  filter (fun r => cell_is t (get "QC_Type" r)) (dup_rows df)
  = filter (fun r => cell_is t (get "QC_Type" r)) (df_rows df).
Proof.
  intros C. unfold dup_rows. rewrite filter_filter.
  apply filter_ext. intros r.
  destruct (cell_is t (get "QC_Type" r)) eqn:E.
  - rewrite (cell_is_contains t _ C E). reflexivity.
  - apply andb_false_r.
Qed.

Lemma orig_rows_with (k : option string) (df : DataFrame) :
  filter (fun r => key_eqb (dup_base r) k) (orig_rows df)
  = rows_with "Duplicate_Orig" k df.
Proof.
  unfold orig_rows, rows_with.
  rewrite (typed_rows "Duplicate_Orig" df eq_refl). apply filter_filter.
Qed.

Lemma dupe_rows_with (k : option string) (df : DataFrame) :
  filter (fun r => key_eqb (dup_base r) k) (dupe_rows df)
  = rows_with "Duplicate_Dup" k df.
Proof.
  unfold dupe_rows, rows_with.
  rewrite (typed_rows "Duplicate_Dup" df eq_refl). apply filter_filter.
Qed.

Lemma paired_block_count (k : option string) (o : row) (l : list row) :
  List.length
    (filter (fun p => key_eqb (dup_base (fst p)) k) (map (fun d => (o, d)) l))
  = if key_eqb (dup_base o) k then List.length l else 0.
Proof.
  induction l as [ | d l IH]; simpl.
  - destruct (key_eqb (dup_base o) k); reflexivity.
  - destruct (key_eqb (dup_base o) k); simpl; rewrite IH; reflexivity.
Qed.

(** The inner join holds, for a base key, every original row with every
    duplicate row of that key. *)
Lemma joined_pairs_count (k : option string) (origs dupes : list row) :
  List.length
    (filter (fun p => key_eqb (dup_base (fst p)) k)
       (flat_map
          (fun o =>
             map (fun d => (o, d))
                 (filter (fun d => key_eqb (dup_base d) (dup_base o)) dupes))
          origs))
  = List.length (filter (fun o => key_eqb (dup_base o) k) origs)
    * List.length (filter (fun d => key_eqb (dup_base d) k) dupes).
Proof.
  induction origs as [ | o origs IH]; [reflexivity | ].
  simpl flat_map. rewrite filter_app, length_app, IH, paired_block_count.
  simpl filter. destruct (key_eqb (dup_base o) k) eqn:E.
  - apply base_key_eqb_eq in E. rewrite E. simpl. lia.
  - reflexivity.
Qed.

Lemma merged_count (k : option string) (df : DataFrame) :
  List.length (filter (fun p => key_eqb (dup_base (fst p)) k) (merged df))
  = List.length (rows_with "Duplicate_Orig" k df)
    * List.length (rows_with "Duplicate_Dup" k df).
Proof.
  unfold merged. rewrite joined_pairs_count, orig_rows_with, dupe_rows_with.
  reflexivity.
Qed.

Lemma filter_map_commute {A B : Type} (f : A -> B) (g : B -> bool)
    (l : list A) :
  filter g (map f l) = map f (filter (fun a => g (f a)) l).
Proof.
  induction l as [ | a l IH]; [reflexivity | ].
  simpl. destruct (g (f a)); simpl; rewrite IH; reflexivity.
Qed.

Lemma paired_block (k : option string) (o : row) (l : list row) :
  filter (fun p => key_eqb (dup_base (fst p)) k) (map (fun d => (o, d)) l)
  = if key_eqb (dup_base o) k then map (fun d => (o, d)) l else [].
Proof.
  induction l as [ | d l IH]; simpl.
  - destruct (key_eqb (dup_base o) k); reflexivity.
  - rewrite IH. destruct (key_eqb (dup_base o) k); reflexivity.
Qed.

(** The rows of the inner join with the base key [k] are every original
    row of that key with every duplicate row of that key. *)
Lemma joined_pairs (k : option string) (origs dupes : list row) :
  filter (fun p => key_eqb (dup_base (fst p)) k)
    (flat_map
       (fun o =>
          map (fun d => (o, d))
              (filter (fun d => key_eqb (dup_base d) (dup_base o)) dupes))
       origs)
  = list_prod (filter (fun o => key_eqb (dup_base o) k) origs)
              (filter (fun d => key_eqb (dup_base d) k) dupes).
Proof.
  induction origs as [ | o origs IH]; [reflexivity | ].
  simpl flat_map. rewrite filter_app, IH, paired_block. simpl filter.
  destruct (key_eqb (dup_base o) k) eqn:E.
  - apply base_key_eqb_eq in E. rewrite E. reflexivity.
  - reflexivity.
Qed.

Lemma merged_pairs (k : option string) (df : DataFrame) :
  filter (fun p => key_eqb (dup_base (fst p)) k) (merged df)
  = list_prod (rows_with "Duplicate_Orig" k df)
              (rows_with "Duplicate_Dup" k df).
Proof.
  unfold merged. rewrite joined_pairs, orig_rows_with, dupe_rows_with.
  reflexivity.
Qed.

Lemma rows_with_base (qc_type : string) (k : option string) (df : DataFrame)
    (r : row) :
  In r (rows_with qc_type k df) -> dup_base r = k.
Proof.
  unfold rows_with. intros I. apply filter_In in I. destruct I as (_ & E).
  apply andb_true_iff in E. destruct E as (_ & E).
  now apply base_key_eqb_eq in E.
Qed.

(** A pair of rows is matched exactly when the first is an original row,
    the second a duplicate row and their base keys are equal. *)
Lemma merged_In (df : DataFrame) (o d : row) :
  In (o, d) (merged df)
  <-> In o (orig_rows df) /\ In d (dupe_rows df)
      /\ key_eqb (dup_base d) (dup_base o) = true.
Proof.
  unfold merged. rewrite in_flat_map. split.
  - intros (o' & Io & I). apply in_map_iff in I.
    destruct I as (d' & E & Id). injection E as -> ->.
    apply filter_In in Id. tauto.
  - intros (Io & Id & E). exists o. split; [exact Io | ].
    apply in_map_iff. exists d. split; [reflexivity | ].
    apply filter_In. tauto.
Qed.

(** C10: for a base sample key with m rows of type Duplicate_Orig and n
    rows of type Duplicate_Dup, the matched pairs of that key are the full
    cross product: every one of the m original rows with every one of the n
    duplicate rows (an inner join on the base key, not a pairing by
    position; none when m or n is 0).  Over all keys, a pair of rows is
    matched exactly when the first is an original row, the second a
    duplicate row and their base keys are equal.  For an analyte the
    records of that key are the records of exactly these pairs, m x n of
    them, and the whole result holds m x n records of that key for each
    analyte of the metadata whose column is in the table. *)
Theorem duplicate_pairs_are_cross_product (df : DataFrame)
    (metadata : list analyte_meta) (rpd_tolerance : float)
    (k : option string) :
  let origs := rows_with "Duplicate_Orig" k df in
  let dups := rows_with "Duplicate_Dup" k df in
  filter (fun p => key_eqb (dup_base (fst p)) k) (merged df)
  = list_prod origs dups
  /\ (forall o d,
        In (o, d) (merged df)
        <-> In o (orig_rows df) /\ In d (dupe_rows df)
            /\ key_eqb (dup_base d) (dup_base o) = true)
  /\ (forall m,
        filter (fun r => key_eqb (Sample r) k)
          (analyte_records py_float df m rpd_tolerance)
        = map (fun p =>
                 pair_record py_float k m rpd_tolerance
                   (get (col_name m) (fst p)) (get (col_name m) (snd p)))
              (list_prod origs dups))
  /\ (forall m,
        List.length
          (filter (fun r => key_eqb (Sample r) k)
             (analyte_records py_float df m rpd_tolerance))
        = List.length origs * List.length dups)
  /\ List.length
       (filter (fun r => key_eqb (Sample r) k)
          (compute_duplicate_rpd py_float df metadata rpd_tolerance))
     = List.length (filter (fun m => has_column df (col_name m)) metadata)
       * (List.length origs * List.length dups).
Proof.
  intros origs dups.
  assert (A : forall m,
             List.length
               (filter (fun r => key_eqb (Sample r) k)
                  (analyte_records py_float df m rpd_tolerance))
             = List.length origs * List.length dups).
  { intros m. unfold analyte_records. rewrite filter_map_length.
    simpl Sample. apply merged_count. }
  split; [apply merged_pairs | ].
  split; [intros o d; apply merged_In | split; [ | split; [exact A | ]]].
  - intros m. unfold analyte_records. rewrite filter_map_commute.
    simpl Sample. rewrite merged_pairs. fold origs dups.
    apply map_ext_in. intros p I.
    destruct p as (o, d). apply in_prod_iff in I. destruct I as (Io & _).
    simpl fst. rewrite (rows_with_base _ _ _ _ Io). reflexivity.
  - unfold compute_duplicate_rpd.
    induction (filter (fun m => has_column df (col_name m)) metadata)
      as [ | m ms IH]; [reflexivity | ].
    simpl flat_map. rewrite filter_app, length_app, A, IH. simpl. lia.
Qed.

End WithFloatParser.

(** The worked example of the duplicate rule: DL = 1, orig = 5, dup = 6 is
    Below10xDL; 50 against 60 is OK (RPD about 18.2) and 50 against 100 is
    Fail_RPD (RPD about 66.7) at the tolerance 30. *)
Lemma detected_pair_status_witness :
  (Status (pair_record Examples.decimal_float (Some "S1") Examples.au_ppm
             30%float (CNum 5%float) (CNum 6%float)) = "Below10xDL"
   /\ RPD (pair_record Examples.decimal_float (Some "S1") Examples.au_ppm
             30%float (CNum 5%float) (CNum 6%float)) = CStr "")
  /\ (RPD (pair_record Examples.decimal_float (Some "S1") Examples.au_ppm
             30%float (CNum 50%float) (CNum 60%float))
      = CNum (rpd_of 50%float 60%float)
      /\ Status (pair_record Examples.decimal_float (Some "S1")
                   Examples.au_ppm 30%float (CNum 50%float) (CNum 60%float))
         = "OK")
  /\ Status (pair_record Examples.decimal_float (Some "S1") Examples.au_ppm
               30%float (CNum 50%float) (CNum 100%float)) = "Fail_RPD".
Proof.
  split; [ | split].
  - destruct (detected_pair_status Examples.decimal_float (Some "S1")
                Examples.au_ppm 30%float (CNum 5%float) (CNum 6%float)
                eq_refl eq_refl eq_refl eq_refl) as (L & _).
    apply L; reflexivity.
  - destruct (detected_pair_status Examples.decimal_float (Some "S1")
                Examples.au_ppm 30%float (CNum 50%float) (CNum 60%float)
                eq_refl eq_refl eq_refl eq_refl) as (_ & H).
    destruct (H eq_refl eq_refl) as (R & S).
    split; [exact R | exact (S eq_refl eq_refl)].
  - destruct (detected_pair_status Examples.decimal_float (Some "S1")
                Examples.au_ppm 30%float (CNum 50%float) (CNum 100%float)
                eq_refl eq_refl eq_refl eq_refl) as (_ & H).
    destruct (H eq_refl eq_refl) as (_ & S).
    exact (S eq_refl eq_refl).
Defined.

(** The mixed case: DL = 1, orig = 50 exceeds 10, dup = 6 does not. *)
Lemma mixed_pair_is_below_10x_witness :
  Status (pair_record Examples.decimal_float (Some "S1") Examples.au_ppm
            30%float (CNum 50%float) (CNum 6%float)) = "Below10xDL"
  /\ RPD (pair_record Examples.decimal_float (Some "S1") Examples.au_ppm
            30%float (CNum 50%float) (CNum 6%float)) = CStr "".
Proof.
  destruct (mixed_pair_is_below_10x Examples.decimal_float (Some "S1")
              Examples.au_ppm 30%float (CNum 50%float) (CNum 6%float)
              eq_refl eq_refl eq_refl eq_refl) as (X & _).
  apply X. vm_compute. discriminate.
Defined.

(** With DL = 1 a censored cell reads 0.5 in the duplicate evaluator, and
    the RPD against 20 is computed from 0.5. *)
Lemma censored_proxy_by_evaluator_witness :
  to_numeric_with_bdl Examples.decimal_float (CStr "<1") 1%float
  = BlankWide.bdl_substitution 1%float (BlankWide.RuleStr "half")
  /\ RPD (pair_record Examples.decimal_float (Some "S1") Examples.au_ppm
            30%float (CStr "<1") (CNum 20%float))
     = CNum (rpd_of (1 / 2)%float 20%float).
Proof.
  destruct (censored_proxy_by_evaluator Examples.decimal_float (CStr "<1")
              1%float eq_refl) as (_ & _ & _ & _ & _ & P & R & _).
  split; [exact P | ].
  destruct (R (Some "S1") Examples.au_ppm 30%float (CNum 20%float)
              eq_refl eq_refl eq_refl) as (_ & E & _).
  exact E.
Defined.

(** C6 (as stated) fails: with the rule zero and DL = 1, the Blank
    Evaluator's substitute is 0 and the Duplicate Evaluator reads the
    censored cell "<1" as 0.5. *)
Lemma duplicate_proxy_ignores_rule :
  ~ (forall (py_float : string -> option float) (rule : string) (x : cell)
            (dl : float),
       In rule ["half"; "sqrt2"; "zero"; "dl"] ->
       is_bdl x = true ->
       to_numeric_with_bdl py_float x dl
       = BlankWide.bdl_substitution dl (BlankWide.RuleStr rule)).
Proof.
  intros H.
  specialize (H Examples.decimal_float "zero" (CStr "<1") 1%float).
  assert (E : to_numeric_with_bdl Examples.decimal_float (CStr "<1") 1%float
              = BlankWide.bdl_substitution 1%float (BlankWide.RuleStr "zero")).
  { apply H; [simpl; auto | reflexivity]. }
  apply (f_equal (fun v => (v <? 0.25)%float)) in E.
  vm_compute in E. discriminate.
Qed.

(** The pairing on a table with two originals and two duplicates of S1 and
    an original of S2 alone: four records for S1, none for S2. *)
Example duplicate_table_records :
  map (fun r => (Sample r, Orig r, Dup r, Status r))
      (compute_duplicate_rpd Examples.decimal_float Examples.duplicate_table
         [Examples.au_ppm] 30%float)
  = [(Some "S1", CNum 50%float, CNum 60%float, "OK");
     (Some "S1", CNum 50%float, CStr "<1", "BDL_Substitution");
     (Some "S1", CNum 52%float, CNum 60%float, "OK");
     (Some "S1", CNum 52%float, CStr "<1", "BDL_Substitution")].
Proof. vm_compute. reflexivity. Qed.

End DuplicateWideFacts.

(** ** The CRM evaluator: [crm_wide.py] *)

Module CrmWideFacts.

Import CrmWide.

Section WithNumericParser.

Variable pd_numeric : string -> option float.

(** C7 (as amended): for a CRM pair whose certified value is a number
    strictly below DL, Recovery and Bias are the empty string; the Status is
    NotApplicable whatever the measured value, provided there is one, and
    NotEvaluated when the measured value is missing. *)
Theorem certified_below_dl (base : option string) (m : analyte_meta)
    (low_tol high_tol : float) (measured_raw certified_raw : cell) :
  (clean pd_numeric certified_raw <? m_dl m)%float = true ->
  let r := crm_pair pd_numeric base m low_tol high_tol
             measured_raw certified_raw in
  PrimFloat.is_nan (clean pd_numeric certified_raw) = false
  /\ Recovery r = CStr "" /\ Bias r = CStr ""
  /\ CRM_Status r
     = if PrimFloat.is_nan (clean pd_numeric measured_raw)
       then "NotEvaluated" else "NotApplicable".
Proof.
  intros Lt r.
  pose proof (FloatFacts.ltb_true_not_nan_l _ _ Lt) as Nc.
  split; [exact Nc | ].
  subst r. unfold crm_pair. cbv zeta. rewrite Nc, Lt.
  destruct (PrimFloat.is_nan (clean pd_numeric measured_raw));
    destruct (clean pd_numeric certified_raw <? 10 * m_dl m)%float;
    destruct (m_dl m <=? clean pd_numeric certified_raw)%float;
    destruct (clean pd_numeric measured_raw <? m_dl m)%float;
    cbn; repeat split; reflexivity.
Qed.

End WithNumericParser.

(** The worked example: certified = 0.5 and DL = 1, measured = 55. *)
Lemma certified_below_dl_witness :
  CRM_Status (crm_pair Examples.decimal_float (Some "STD1") Examples.au_ppm
                80%float 120%float (CNum 55%float) (CNum 0.5%float))
  = "NotApplicable"
  /\ Recovery (crm_pair Examples.decimal_float (Some "STD1") Examples.au_ppm
                 80%float 120%float (CNum 55%float) (CNum 0.5%float))
     = CStr ""
  /\ Bias (crm_pair Examples.decimal_float (Some "STD1") Examples.au_ppm
             80%float 120%float (CNum 55%float) (CNum 0.5%float))
     = CStr "".
Proof.
  destruct (certified_below_dl Examples.decimal_float (Some "STD1")
              Examples.au_ppm 80%float 120%float (CNum 55%float)
              (CNum 0.5%float) eq_refl) as (_ & R & B & S).
  split; [exact S | split; [exact R | exact B]].
Defined.

(** C7 (as stated) fails: with the measured value missing, certified = 0.5
    and DL = 1 give NotEvaluated, the one-missing rule coming first. *)
Lemma certified_below_dl_measured_missing :
  ~ (forall (pd_numeric : string -> option float) (base : option string)
            (m : analyte_meta) (low_tol high_tol : float)
            (measured_raw certified_raw : cell),
       PrimFloat.is_nan (clean pd_numeric certified_raw) = false ->
       (clean pd_numeric certified_raw <? m_dl m)%float = true ->
       CRM_Status (crm_pair pd_numeric base m low_tol high_tol
                     measured_raw certified_raw) = "NotApplicable").
Proof.
  intros H.
  specialize (H Examples.decimal_float (Some "STD1") Examples.au_ppm
                80%float 120%float CNone (CNum 0.5%float) eq_refl eq_refl).
  vm_compute in H. discriminate.
Qed.

End CrmWideFacts.

(** ** More on the aggregator *)

Module AggregatorFacts.

Import QcSummary.
Import Vocabulary.
Import QcSummaryFacts.

Lemma forallb_dup_neutral (l : list string) :
  forallb (fun s => in_list s ["BothBDL"; "Below10xDL"]) l = true
  <-> Forall dup_neutral l.
Proof.
  rewrite forallb_forall, Forall_forall. unfold dup_neutral.
  split; intros H s Hs; specialize (H s Hs).
  - apply in_list_In in H. simpl in H. intuition congruence.
  - apply in_list_In. simpl. intuition congruence.
Qed.

(** X1: the duplicate FinalStatus of an analyte follows, from its per-pair
    status list, the first-match precedence: any Fail_RPD gives Fail; else
    any BDL_Substitution or NotEvaluated gives Needs Investigation; else
    any OK gives OK; else statuses all in {BothBDL, Below10xDL} give
    NotApplicable; else NotEvaluated.  The result is never the string
    BDL_Substitution. *)
Theorem dup_final_status_precedence (statuses : list string) :
  let r := compute_dup_final_status statuses in
  (In "Fail_RPD" statuses -> r = "Fail")
  /\ (~ In "Fail_RPD" statuses ->
      In "BDL_Substitution" statuses \/ In "NotEvaluated" statuses ->
      r = "Needs Investigation")
  /\ (~ In "Fail_RPD" statuses -> ~ In "BDL_Substitution" statuses ->
      ~ In "NotEvaluated" statuses -> In "OK" statuses -> r = "OK")
  /\ (~ In "Fail_RPD" statuses -> ~ In "BDL_Substitution" statuses ->
      ~ In "NotEvaluated" statuses -> ~ In "OK" statuses ->
      Forall dup_neutral statuses -> r = "NotApplicable")
  /\ (~ In "Fail_RPD" statuses -> ~ In "BDL_Substitution" statuses ->
      ~ In "NotEvaluated" statuses -> ~ In "OK" statuses ->
      ~ Forall dup_neutral statuses -> r = "NotEvaluated")
  /\ r <> "BDL_Substitution".
Proof.
  intros r. subst r. unfold compute_dup_final_status.
  destruct (in_list "Fail_RPD" statuses) eqn:F;
    [apply in_list_In in F | apply in_list_false in F].
  { repeat split; intros; try reflexivity; try tauto; discriminate. }
  destruct (in_list "BDL_Substitution" statuses) eqn:B;
    [apply in_list_In in B | apply in_list_false in B].
  { repeat split; intros; try reflexivity; try tauto; discriminate. }
  destruct (in_list "NotEvaluated" statuses) eqn:N;
    [apply in_list_In in N | apply in_list_false in N].
  { repeat split; intros; try reflexivity; try tauto; discriminate. }
  destruct (in_list "OK" statuses) eqn:K;
    [apply in_list_In in K | apply in_list_false in K].
  { repeat split; intros; try reflexivity; try tauto; discriminate. }
  destruct (forallb _ statuses) eqn:A.
  { apply forallb_dup_neutral in A.
    repeat split; intros; try reflexivity; try tauto; discriminate. }
  assert (NA : ~ Forall dup_neutral statuses).
  { intros H. apply forallb_dup_neutral in H. congruence. }
  repeat split; intros; try reflexivity; try tauto; discriminate.
Qed.

Ltac absent :=
  repeat (apply (proj2 (not_in_cons _ _ _)); split; [discriminate | ]);
  apply in_nil.

Lemma dup_final_status_precedence_witness :
  compute_dup_final_status ["OK"; "Fail_RPD"; "BothBDL"] = "Fail"
  /\ compute_dup_final_status ["OK"; "NotEvaluated"] = "Needs Investigation"
  /\ compute_dup_final_status ["BothBDL"; "OK"] = "OK"
  /\ compute_dup_final_status ["BothBDL"; "Below10xDL"] = "NotApplicable"
  /\ compute_dup_final_status ["BothBDL"; ""] = "NotEvaluated".
Proof.
  split; [ | split; [ | split; [ | split]]].
  - destruct (dup_final_status_precedence ["OK"; "Fail_RPD"; "BothBDL"])
      as (H & _).
    apply H. simpl. auto.
  - destruct (dup_final_status_precedence ["OK"; "NotEvaluated"])
      as (_ & H & _).
    apply H; [absent | right; simpl; auto].
  - destruct (dup_final_status_precedence ["BothBDL"; "OK"])
      as (_ & _ & H & _).
    apply H; [absent | absent | absent | simpl; auto].
  - destruct (dup_final_status_precedence ["BothBDL"; "Below10xDL"])
      as (_ & _ & _ & H & _).
    apply H; [absent | absent | absent | absent | ].
    constructor; [left; reflexivity | ].
    constructor; [right; reflexivity | constructor].
  - destruct (dup_final_status_precedence ["BothBDL"; ""])
      as (_ & _ & _ & _ & H & _).
    apply H; [absent | absent | absent | absent | ].
    intros A. inversion A as [ | ? ? _ A']. inversion A' as [ | ? ? E _].
    destruct E; discriminate.
Defined.

(** X2: the Final_QC_Flag is Fail exactly when one of the three normalized
    statuses is Fail, and Pass exactly when none is Fail, the CRM status is
    not Needs Investigation, the duplicate status is neither
    BDL_Substitution nor NotEvaluated and the blank status is neither Needs
    Investigation nor NotEvaluated; it is Needs Investigation otherwise.
    A missing duplicate or blank status reads as NotEvaluated, so it never
    passes. *)
Theorem final_flag_cases (crm dup blank : option string) :
  let c := normalize_status crm in
  let d := normalize_status dup in
  let b := normalize_status blank in
  let flag := final_flag crm dup blank in
  (flag = "Fail" <-> c = "Fail" \/ d = "Fail" \/ b = "Fail")
  /\ (flag = "Pass" <->
      c <> "Fail" /\ d <> "Fail" /\ b <> "Fail"
      /\ c <> "Needs Investigation"
      /\ d <> "BDL_Substitution" /\ d <> "NotEvaluated"
      /\ b <> "Needs Investigation" /\ b <> "NotEvaluated")
  /\ (flag = "Fail" \/ flag = "Needs Investigation" \/ flag = "Pass")
  /\ (dup = None \/ blank = None -> flag <> "Pass").
Proof.
  intros c d b flag.
  assert (M : (flag = "Fail" <-> c = "Fail" \/ d = "Fail" \/ b = "Fail")
    /\ (flag = "Pass" <->
        c <> "Fail" /\ d <> "Fail" /\ b <> "Fail"
        /\ c <> "Needs Investigation"
        /\ d <> "BDL_Substitution" /\ d <> "NotEvaluated"
        /\ b <> "Needs Investigation" /\ b <> "NotEvaluated")
    /\ (flag = "Fail" \/ flag = "Needs Investigation" \/ flag = "Pass")).
  { subst flag. unfold final_flag. fold c d b. unfold in_list. simpl existsb.
    destruct (String.eqb_spec c "Fail"), (String.eqb_spec d "Fail"),
      (String.eqb_spec b "Fail"); simpl;
      try (repeat split; intros; try discriminate; tauto).
    destruct (String.eqb_spec c "Needs Investigation"); simpl;
      try (repeat split; intros; try discriminate; tauto).
    destruct (String.eqb_spec d "BDL_Substitution"),
      (String.eqb_spec d "NotEvaluated"); simpl;
      try (repeat split; intros; try discriminate; tauto).
    destruct (String.eqb_spec b "Needs Investigation"),
      (String.eqb_spec b "NotEvaluated"); simpl;
      repeat split; intros; try discriminate; tauto. }
  destruct M as (M1 & M2 & M3).
  split; [exact M1 | split; [exact M2 | split; [exact M3 | ]]].
  intros [E | E] P; apply M2 in P; subst d b; rewrite E in P; simpl in P;
    tauto.
Qed.

(** X3: [build_qc_summary] returns a table exactly when none of the three
    module tables is empty; with an empty (or absent) CRM, duplicate or
    blank table the selection of the output columns raises KeyError. *)
Theorem build_qc_summary_fails_iff_empty (crm : list CrmWide.crm_record)
    (dup : list DuplicateWide.dup_record)
    (blank : list BlankWide.blank_record) :
  build_qc_summary crm dup blank = None
  <-> crm = [] \/ dup = [] \/ blank = [].
Proof.
  split; [ | apply build_qc_summary_empty_module].
  intros N.
  destruct crm as [ | c crm]; [left; reflexivity | ].
  destruct dup as [ | d dup]; [right; left; reflexivity | ].
  destruct blank as [ | b blank]; [right; right; reflexivity | ].
  rewrite build_qc_summary_rows in N; discriminate.
Qed.

Lemma group_apply_In {A B : Type} (key_of : A -> key)
    (reduce : list A -> B) (l : list A) (k : key) (v : B) :
  In (k, v) (group_apply key_of reduce l) ->
  In k (map key_of l)
  /\ v = reduce (filter (fun a => key_eqb (key_of a) k) l).
Proof.
  unfold group_apply. intros I. apply in_map_iff in I.
  destruct I as (k' & E & I). injection E as -> <-.
  split; [exact (proj1 (group_keys_In _ _) I) | reflexivity].
Qed.

Lemma crm_small_In (crm : list CrmWide.crm_record) (k : key)
    (v : crm_summary) :
  In (k, v) (rows (crm_small crm)) ->
  In k (map crm_key crm)
  /\ v = reduce_crm (filter (fun a => key_eqb (crm_key a) k) crm).
Proof.
  destruct crm as [ | c crm]; [intros [] | ]. apply group_apply_In.
Qed.

(** What a row of the summary holds, block by block. *)
Lemma summary_row_blocks (crm : list CrmWide.crm_record)
    (dup : list DuplicateWide.dup_record)
    (blank : list BlankWide.blank_record)
    (summary : list summary_row) (r : summary_row) :
  build_qc_summary crm dup blank = Some summary -> In r summary ->
  In (s_key r) (map crm_key crm)
  /\ s_crm r
     = reduce_crm (filter (fun a => key_eqb (crm_key a) (s_key r)) crm)
  /\ s_dup r
     = (if existsb (key_eqb (s_key r)) (map dup_key dup)
        then Some (reduce_dup
                     (filter (fun a => key_eqb (dup_key a) (s_key r)) dup))
        else None)
  /\ match s_blank r with
     | Some b =>
         exists rec, In rec blank /\ blank_key rec = s_key r
                     /\ b = {| Blank_Average := BlankWide.Average rec;
                               Blank_StDev := BlankWide.StDev rec;
                               Blank_Status := BlankWide.Blank_Status rec |}
     | None => ~ In (s_key r) (map blank_key blank)
     end
  /\ Final_QC_Flag r
     = final_flag (Some (CRM_FinalStatus (s_crm r)))
         (option_map Duplicate_Status (s_dup r))
         (option_map Blank_Status (s_blank r)).
Proof.
  intros B I.
  assert (N : crm <> [] /\ dup <> [] /\ blank <> []).
  { repeat split; intros ->;
      rewrite build_qc_summary_empty_module in B; auto; discriminate. }
  destruct N as (Nc & Nd & Nb).
  rewrite (build_qc_summary_rows crm dup blank Nc Nd Nb) in B.
  injection B as <-.
  apply in_map_iff in I. destruct I as (x & <- & Ix).
  apply left_join_In in Ix. destruct Ix as (I1 & I2).
  apply left_join_In in I1. destruct I1 as (I0 & I3). simpl in I0, I3.
  apply crm_small_In in I0. destruct I0 as (Kc & Vc).
  unfold summary_row_of. simpl.
  split; [exact Kc | split; [exact Vc | split; [ | split; [ | reflexivity]]]].
  - destruct (snd (fst (snd x))) as [d | ].
    + apply group_apply_In in I3. destruct I3 as (Kd & Vd).
      apply existsb_key_In in Kd. rewrite Kd, Vd. reflexivity.
    + destruct (existsb (key_eqb (fst x)) (map dup_key dup)) eqn:E;
        [ | reflexivity].
      exfalso. apply I3. apply existsb_key_In in E.
      change (rows (dup_small dup)) with (group_apply dup_key reduce_dup dup).
      rewrite group_apply_keys. exact (proj2 (group_keys_In _ _) E).
  - destruct (snd (snd x)) as [b | ].
    + simpl in I2. apply in_map_iff in I2. destruct I2 as (rec & E & Ir).
      injection E as Ek Eb. exists rec. repeat split; auto.
    + simpl in I2. rewrite map_map in I2. exact I2.
Qed.

(** X4: every row of the summary is made of the reduction of exactly the
    CRM records of its (Analyte, Unit) pair, of the reduction of exactly
    the duplicate records of that pair when there are some (an empty block
    otherwise), and of the fields of a blank record of that pair when there
    is one (an empty block otherwise); its flag is [final_flag] of the
    three statuses so obtained. *)
Theorem summary_row_content (crm : list CrmWide.crm_record)
    (dup : list DuplicateWide.dup_record)
    (blank : list BlankWide.blank_record)
    (summary : list summary_row) (r : summary_row) :
  build_qc_summary crm dup blank = Some summary -> In r summary ->
  In (s_key r) (map crm_key crm)
  /\ s_crm r
     = reduce_crm (filter (fun a => key_eqb (crm_key a) (s_key r)) crm)
  /\ s_dup r
     = (if existsb (key_eqb (s_key r)) (map dup_key dup)
        then Some (reduce_dup
                     (filter (fun a => key_eqb (dup_key a) (s_key r)) dup))
        else None)
  /\ match s_blank r with
     | Some b =>
         exists rec, In rec blank /\ blank_key rec = s_key r
                     /\ b = {| Blank_Average := BlankWide.Average rec;
                               Blank_StDev := BlankWide.StDev rec;
                               Blank_Status := BlankWide.Blank_Status rec |}
     | None => ~ In (s_key r) (map blank_key blank)
     end
  /\ Final_QC_Flag r
     = final_flag (Some (CRM_FinalStatus (s_crm r)))
         (option_map Duplicate_Status (s_dup r))
         (option_map Blank_Status (s_blank r)).
Proof. apply summary_row_blocks. Qed.

Lemma final_flag_without_status (crm dup blank : option string) :
  dup = None \/ blank = None ->
  final_flag crm dup blank = "Fail"
  \/ final_flag crm dup blank = "Needs Investigation".
Proof.
  unfold final_flag, in_list. simpl existsb.
  intros [-> | ->]; simpl normalize_status;
    destruct (String.eqb (normalize_status crm) "Fail"),
      (String.eqb (normalize_status crm) "Needs Investigation");
    simpl; auto;
    repeat match goal with
           | |- context [String.eqb ?a ?b] => destruct (String.eqb a b)
           end; simpl; auto.
Qed.

(** X5: in the summary, an analyte of the CRM table that has no record in
    the duplicate table, or none in the blank table, is never flagged Pass:
    its missing status reads as NotEvaluated and the flag is Needs
    Investigation, or Fail when another module failed. *)
Theorem analyte_without_module_never_passes
    (crm : list CrmWide.crm_record) (dup : list DuplicateWide.dup_record)
    (blank : list BlankWide.blank_record)
    (summary : list summary_row) (r : summary_row) :
  build_qc_summary crm dup blank = Some summary -> In r summary ->
  ~ In (s_key r) (map dup_key dup) \/ ~ In (s_key r) (map blank_key blank) ->
  Final_QC_Flag r = "Fail" \/ Final_QC_Flag r = "Needs Investigation".
Proof.
  intros B I M.
  destruct (summary_row_blocks crm dup blank summary r B I)
    as (_ & _ & D & K & F).
  rewrite F. apply final_flag_without_status.
  destruct M as [M | M].
  - left. rewrite D.
    destruct (existsb (key_eqb (s_key r)) (map dup_key dup)) eqn:E;
      [ | reflexivity].
    apply existsb_key_In in E. contradiction.
  - right. destruct (s_blank r) as [b | ]; [ | reflexivity].
    destruct K as (rec & Ir & Ek & _). exfalso. apply M.
    rewrite <- Ek. now apply in_map.
Qed.

Lemma summary_row_content_witness :
  exists summary r,
    build_qc_summary [Examples.crm_au] [Examples.dup_cu] [Examples.blank_au]
    = Some summary
    /\ In r summary
    /\ s_key r = ("Au", "ppm")
    /\ s_dup r = None
    /\ option_map Blank_Status (s_blank r) = Some "OK".
Proof.
  destruct (build_qc_summary [Examples.crm_au] [Examples.dup_cu]
              [Examples.blank_au]) as [summary | ] eqn:B;
    [ | vm_compute in B; discriminate].
  destruct summary as [ | r rest]; [vm_compute in B; discriminate | ].
  exists (r :: rest), r.
  destruct (summary_row_content [Examples.crm_au] [Examples.dup_cu]
              [Examples.blank_au] (r :: rest) r B (or_introl eq_refl))
    as (K & _ & D & _).
  split; [reflexivity | split; [left; reflexivity | ]].
  assert (Ek : s_key r = ("Au", "ppm"))
    by (destruct K as [K | []]; symmetry; exact K).
  split; [exact Ek | ]. rewrite Ek in D. split; [exact D | ].
  vm_compute in B. injection B as <- _. reflexivity.
Defined.

Lemma analyte_without_module_never_passes_witness :
  exists summary r,
    build_qc_summary [Examples.crm_au] [Examples.dup_cu] [Examples.blank_au]
    = Some summary
    /\ In r summary
    /\ (Final_QC_Flag r = "Fail" \/ Final_QC_Flag r = "Needs Investigation").
Proof.
  destruct (build_qc_summary [Examples.crm_au] [Examples.dup_cu]
              [Examples.blank_au]) as [summary | ] eqn:B;
    [ | vm_compute in B; discriminate].
  destruct summary as [ | r rest]; [vm_compute in B; discriminate | ].
  exists (r :: rest), r.
  split; [reflexivity | split; [left; reflexivity | ]].
  apply (analyte_without_module_never_passes [Examples.crm_au]
           [Examples.dup_cu] [Examples.blank_au] (r :: rest) r B
           (or_introl eq_refl)).
  left. vm_compute in B. injection B as <- _. simpl.
  intros [E | []]. discriminate.
Defined.

End AggregatorFacts.

(** ** More on the duplicate evaluator *)

Module DuplicatePairFacts.

Import DuplicateWide.
Import Vocabulary.

(** Case analysis on every test of [pair_record]. *)
Ltac split_masks :=
  repeat match goal with
         | |- context [PrimFloat.ltb ?a ?b] => destruct (PrimFloat.ltb a b)
         | |- context [PrimFloat.leb ?a ?b] => destruct (PrimFloat.leb a b)
         | |- context [PrimFloat.is_nan ?a] => destruct (PrimFloat.is_nan a)
         end.

Section WithFloatParser.

Variable py_float : string -> option float.

(** X6: a pair with a missing side is NotEvaluated, whatever the other side
    holds (a number, a censored value); a pair with two censored sides is
    BothBDL.  In both cases the RPD field is the empty string: no RPD is
    computed. *)
Theorem pair_without_precision (base : option string) (m : analyte_meta)
    (rpd_tolerance : float) (orig dup : cell) :
  let r := pair_record py_float base m rpd_tolerance orig dup in
  (pd_isna orig = true \/ pd_isna dup = true ->
   Status r = "NotEvaluated" /\ RPD r = CStr "")
  /\ (is_bdl orig = true -> is_bdl dup = true ->
      Status r = "BothBDL" /\ RPD r = CStr "").
Proof.
  intros r. subst r. split.
  - intros M. unfold pair_record. cbv zeta.
    destruct (pd_isna orig) eqn:Po, (pd_isna dup) eqn:Pd;
      try (destruct M; discriminate);
      destruct (is_bdl orig), (is_bdl dup); split_masks; cbn;
      (split; reflexivity).
  - intros Bo Bd. unfold pair_record. cbv zeta.
    rewrite (DuplicateWideFacts.is_bdl_present orig Bo),
      (DuplicateWideFacts.is_bdl_present dup Bd), Bo, Bd.
    split_masks; cbn; (split; reflexivity).
Qed.

Lemma pair_status_cases (base : option string) (m : analyte_meta)
    (rpd_tolerance : float) (orig dup : cell) :
  let r := pair_record py_float base m rpd_tolerance orig dup in
  In (Status r) dup_statuses
  /\ (Status r = "" ->
      Above10xDL r = true
      /\ (PrimFloat.is_nan (rpd_to_numeric (RPD r)) = true
          \/ PrimFloat.is_nan rpd_tolerance = true)).
Proof.
  intros r. subst r.
  destruct (pd_isna orig) eqn:Po, (pd_isna dup) eqn:Pd,
    (is_bdl orig) eqn:Bo, (is_bdl dup) eqn:Bd;
    try (unfold pair_record; cbv zeta; rewrite Po, Pd, Bo, Bd;
         split_masks; cbn;
         (split; [unfold dup_statuses; simpl; tauto | discriminate])).
  destruct (above_10x (m_dl m) (to_numeric_with_bdl py_float orig (m_dl m)))
    eqn:Ao;
    [ | destruct (DuplicateWideFacts.detected_pair_low py_float base m
                    rpd_tolerance orig dup Po Pd Bo Bd) as (S & _);
        [rewrite Ao; reflexivity | ];
        rewrite S; split; [unfold dup_statuses; simpl; tauto | discriminate] ].
  destruct (above_10x (m_dl m) (to_numeric_with_bdl py_float dup (m_dl m)))
    eqn:Ad;
    [ | destruct (DuplicateWideFacts.detected_pair_low py_float base m
                    rpd_tolerance orig dup Po Pd Bo Bd) as (S & _);
        [rewrite Ao, Ad; reflexivity | ];
        rewrite S; split; [unfold dup_statuses; simpl; tauto | discriminate] ].
  destruct (DuplicateWideFacts.detected_pair_high py_float base m
              rpd_tolerance orig dup Po Pd Bo Bd Ao Ad) as (R & S).
  assert (A : Above10xDL (pair_record py_float base m rpd_tolerance orig dup)
              = true).
  { unfold above_10x in Ao, Ad. unfold pair_record. cbv zeta. simpl.
    rewrite Ao, Ad. reflexivity. }
  rewrite S, R, A. simpl rpd_to_numeric.
  set (rpd := rpd_of (to_numeric_with_bdl py_float orig (m_dl m))
                     (to_numeric_with_bdl py_float dup (m_dl m))).
  destruct (PrimFloat.is_nan rpd) eqn:Nr; cbn [negb andb].
  - split; [unfold dup_statuses; simpl; tauto | auto].
  - destruct (rpd_tolerance <? rpd)%float eqn:Lt; [split; [unfold dup_statuses; simpl; tauto | discriminate] | ].
    destruct (rpd <=? rpd_tolerance)%float eqn:Le; [split; [unfold dup_statuses; simpl; tauto | discriminate] | ].
    split; [unfold dup_statuses; simpl; tauto | ]. intros _. split; [reflexivity | right].
    destruct (PrimFloat.is_nan rpd_tolerance) eqn:Nt; [reflexivity | ].
    rewrite (FloatFacts.leb_false_ltb_true _ _ Nr Nt Le) in Lt. discriminate.
Qed.

(** X7: the Status of a duplicate record is one of NotEvaluated, BothBDL,
    BDL_Substitution, Below10xDL, OK and Fail_RPD, or the empty string; it
    is the empty string only for a pair evaluated above 10 x DL whose RPD
    is NaN or whose tolerance is NaN. *)
Theorem pair_status_vocabulary (base : option string) (m : analyte_meta)
    (rpd_tolerance : float) (orig dup : cell) :
  let r := pair_record py_float base m rpd_tolerance orig dup in
  In (Status r) dup_statuses
  /\ (Status r = "" ->
      Above10xDL r = true
      /\ (PrimFloat.is_nan (rpd_to_numeric (RPD r)) = true
          \/ PrimFloat.is_nan rpd_tolerance = true)).
Proof. apply pair_status_cases. Qed.

Lemma compute_duplicate_rpd_In (df : DataFrame)
    (metadata : list analyte_meta) (rpd_tolerance : float) (r : dup_record) :
  In r (compute_duplicate_rpd py_float df metadata rpd_tolerance) ->
  exists base m orig dup,
    In m metadata /\ has_column df (col_name m) = true
    /\ r = pair_record py_float base m rpd_tolerance orig dup.
Proof.
  unfold compute_duplicate_rpd. intros I. apply in_flat_map in I.
  destruct I as (m & Im & Ir). apply filter_In in Im. destruct Im as (Im & C).
  unfold analyte_records in Ir. apply in_map_iff in Ir.
  destruct Ir as (p & <- & _). eauto 8.
Qed.

Lemma status_is_not_fail (s : string) :
  In s dup_statuses -> String.eqb (PyStr.upper s) "FAIL" = false.
Proof.
  unfold dup_statuses. simpl.
  intros [<- | [<- | [<- | [<- | [<- | [<- | [<- | []]]]]]]]; reflexivity.
Qed.

Section WithFormat.

Variable format_1f : float -> string.

(** X8: on any table produced by [compute_duplicate_rpd],
    [summarize_duplicates] reports no failure: it looks for the status
    FAIL (in upper case), and the evaluator marks a failed pair Fail_RPD. *)
Theorem summarize_duplicates_sees_no_failure (df : DataFrame)
    (metadata : list analyte_meta) (rpd_tolerance : float) :
  let results := compute_duplicate_rpd py_float df metadata rpd_tolerance in
  Interpretation.failures
    (Interpretation.summarize_duplicates format_1f results) = 0
  /\ Interpretation.failed
       (Interpretation.summarize_duplicates format_1f results) = [].
Proof.
  intros results.
  assert (F : forall l,
             (forall r, In r l -> In r results) ->
             filter (fun r => String.eqb (PyStr.upper (Status r)) "FAIL") l
             = []).
  { induction l as [ | r l IH]; intros Sub; [reflexivity | ].
    simpl. destruct (compute_duplicate_rpd_In df metadata rpd_tolerance r)
      as (base & m & orig & dup & _ & _ & ->); [apply Sub; left; reflexivity | ].
    rewrite status_is_not_fail by apply pair_status_cases.
    apply IH. intros r' I. apply Sub. right. exact I. }
  unfold Interpretation.summarize_duplicates.
  destruct results as [ | r0 rs] eqn:E; [split; reflexivity | ].
  rewrite <- E in *.
  destruct (filter _ results) as [ | n ns] eqn:Fn; [split; reflexivity | ].
  rewrite <- Fn. simpl.
  rewrite F; [split; reflexivity | ].
  intros r I. apply filter_In in I. tauto.
Qed.

End WithFormat.

End WithFloatParser.

(** A failed pair: 50 against 100 at DL = 1 is Fail_RPD, and the metrics
    count one evaluated pair and no failure. *)
Example failed_pair_is_not_counted :
  let results :=
    [pair_record Examples.decimal_float (Some "S1") Examples.au_ppm 30%float
       (CNum 50%float) (CNum 100%float)] in
  map Status results = ["Fail_RPD"]
  /\ Interpretation.count
       (Interpretation.summarize_duplicates (fun _ => "") results) = 1
  /\ Interpretation.failures
       (Interpretation.summarize_duplicates (fun _ => "") results) = 0.
Proof. vm_compute. repeat split. Qed.

Lemma pair_without_precision_witness :
  Status (pair_record Examples.decimal_float (Some "S1") Examples.au_ppm
            30%float CNone (CStr "<1")) = "NotEvaluated"
  /\ Status (pair_record Examples.decimal_float (Some "S1") Examples.au_ppm
               30%float (CStr "<1") (CStr "< 1")) = "BothBDL".
Proof.
  destruct (pair_without_precision Examples.decimal_float (Some "S1")
              Examples.au_ppm 30%float CNone (CStr "<1")) as (M & _).
  destruct (pair_without_precision Examples.decimal_float (Some "S1")
              Examples.au_ppm 30%float (CStr "<1") (CStr "< 1")) as (_ & B).
  split.
  - apply M. left. reflexivity.
  - apply B; reflexivity.
Defined.

Lemma pair_status_vocabulary_witness :
  Status (pair_record Examples.decimal_float (Some "S1") Examples.au_ppm
            30%float (CNum infinity) (CNum infinity)) = ""
  /\ PrimFloat.is_nan
       (rpd_to_numeric
          (RPD (pair_record Examples.decimal_float (Some "S1")
                  Examples.au_ppm 30%float (CNum infinity) (CNum infinity))))
     = true.
Proof.
  destruct (pair_status_vocabulary Examples.decimal_float (Some "S1")
              Examples.au_ppm 30%float (CNum infinity) (CNum infinity))
    as (_ & H).
  destruct (H eq_refl) as (_ & [N | N]).
  - split; [reflexivity | exact N].
  - vm_compute in N. discriminate.
Defined.

End DuplicatePairFacts.

(** ** More on the CRM evaluator *)

Module CrmPairFacts.

Import CrmWide.
Import Vocabulary.

Ltac split_tests :=
  repeat match goal with
         | |- context [PrimFloat.ltb ?a ?b] => destruct (PrimFloat.ltb a b)
         | |- context [PrimFloat.leb ?a ?b] => destruct (PrimFloat.leb a b)
         | |- context [PrimFloat.is_nan ?a] => destruct (PrimFloat.is_nan a)
         end.

Section WithNumericParser.

Variable pd_numeric : string -> option float.

(** X9: a CRM pair whose measured and certified values are both missing is
    NotApplicable, and a pair with exactly one of them missing is
    NotEvaluated, whatever DL and the tolerances; Recovery and Bias are the
    empty string.  A qualified cell such as "<0.5" or ">100" is missing for
    this purpose. *)
Theorem crm_pair_missing_values (base : option string) (m : analyte_meta)
    (low_tol high_tol : float) (measured_raw certified_raw : cell) :
  let measured := clean pd_numeric measured_raw in
  let certified := clean pd_numeric certified_raw in
  let r := crm_pair pd_numeric base m low_tol high_tol
             measured_raw certified_raw in
  (PrimFloat.is_nan measured = true -> PrimFloat.is_nan certified = true ->
   CRM_Status r = "NotApplicable" /\ Recovery r = CStr "" /\ Bias r = CStr "")
  /\ (PrimFloat.is_nan measured <> PrimFloat.is_nan certified ->
      CRM_Status r = "NotEvaluated" /\ Recovery r = CStr ""
      /\ Bias r = CStr "")
  /\ (forall s, measured_raw = CStr s ->
        is_qualifier (PyStr.strip s) = true ->
        PrimFloat.is_nan measured = true).
Proof.
  intros measured certified r. subst measured certified r.
  split; [ | split].
  - intros Nm Nc. unfold crm_pair. cbv zeta. rewrite Nm, Nc.
    split_tests; cbn; repeat split; reflexivity.
  - intros X. unfold crm_pair. cbv zeta.
    destruct (PrimFloat.is_nan (clean pd_numeric measured_raw)),
      (PrimFloat.is_nan (clean pd_numeric certified_raw));
      try congruence; split_tests; cbn; repeat split; reflexivity.
  - intros s -> Q. simpl. rewrite Q. reflexivity.
Qed.

(** X10: for a CRM pair with both values present and a certified value
    that is not below DL: a certified value below 10 x DL gives Below10xDL
    with Recovery and Bias empty, whatever the measured value (also one
    below DL); otherwise a measured value below DL gives Needs
    Investigation with Recovery and Bias set to the marker "BDL". *)
Theorem crm_pair_without_recovery (base : option string) (m : analyte_meta)
    (low_tol high_tol : float) (measured_raw certified_raw : cell) :
  let measured := clean pd_numeric measured_raw in
  let certified := clean pd_numeric certified_raw in
  let r := crm_pair pd_numeric base m low_tol high_tol
             measured_raw certified_raw in
  PrimFloat.is_nan measured = false -> PrimFloat.is_nan certified = false ->
  (certified <? m_dl m)%float = false ->
  ((certified <? 10 * m_dl m)%float = true ->
   CRM_Status r = "Below10xDL" /\ Recovery r = CStr "" /\ Bias r = CStr "")
  /\ ((certified <? 10 * m_dl m)%float = false ->
      (m_dl m <=? certified)%float = true ->
      (measured <? m_dl m)%float = true ->
      CRM_Status r = "Needs Investigation" /\ Recovery r = CStr "BDL"
      /\ Bias r = CStr "BDL").
Proof.
  intros measured certified r Nm Nc Lt. subst measured certified r.
  split.
  - intros L10. unfold crm_pair. cbv zeta. rewrite Nm, Nc, Lt, L10.
    split_tests; cbn; repeat split; reflexivity.
  - intros L10 Ge Lm. unfold crm_pair. cbv zeta.
    rewrite Nm, Nc, Lt, L10, Ge, Lm.
    split_tests; cbn; repeat split; reflexivity.
Qed.

(** X11: for a CRM pair with both values present, a certified value that is
    neither below DL nor below 10 x DL and a measured value that is not
    below DL, Recovery is measured / certified x 100 and Bias is that
    Recovery minus 100; the Recovery and the two tolerances being numbers,
    the Status is OK when low_tol <= Recovery <= high_tol and Fail
    otherwise. *)
Theorem crm_pair_recovery (base : option string) (m : analyte_meta)
    (low_tol high_tol : float) (measured_raw certified_raw : cell) :
  let measured := clean pd_numeric measured_raw in
  let certified := clean pd_numeric certified_raw in
  let r := crm_pair pd_numeric base m low_tol high_tol
             measured_raw certified_raw in
  let recovery := (measured / certified * 100)%float in
  PrimFloat.is_nan measured = false -> PrimFloat.is_nan certified = false ->
  (certified <? m_dl m)%float = false ->
  (certified <? 10 * m_dl m)%float = false ->
  (m_dl m <=? certified)%float && (measured <? m_dl m)%float = false ->
  Recovery r = CNum recovery
  /\ Bias r = CNum (recovery - 100)%float
  /\ (PrimFloat.is_nan recovery = false ->
      PrimFloat.is_nan low_tol = false ->
      PrimFloat.is_nan high_tol = false ->
      CRM_Status r
      = if (low_tol <=? recovery)%float && (recovery <=? high_tol)%float
        then "OK" else "Fail").
Proof.
  intros measured certified r recovery Nm Nc Lt L10 NI.
  assert (E : Recovery r = CNum recovery
              /\ Bias r = CNum (recovery - 100)%float
              /\ CRM_Status r
                 = if negb (PrimFloat.is_nan recovery)
                      && ((recovery <? low_tol)%float
                          || (high_tol <? recovery)%float)
                   then "Fail"
                   else if negb (PrimFloat.is_nan recovery)
                           && (low_tol <=? recovery)%float
                           && (recovery <=? high_tol)%float
                        then "OK" else "").
  { subst r recovery measured certified. unfold crm_pair. cbv zeta.
    rewrite Nm, Nc, Lt, L10.
    destruct (m_dl m <=? clean pd_numeric certified_raw)%float,
      (clean pd_numeric measured_raw <? m_dl m)%float;
      try discriminate NI; cbn; repeat split; reflexivity. }
  destruct E as (R & B & S).
  split; [exact R | split; [exact B | ]].
  intros Nr Nl Nh. rewrite S, Nr. cbn [negb andb].
  destruct (low_tol <=? recovery)%float eqn:L1.
  - rewrite (FloatFacts.leb_true_ltb_false _ _ L1). cbn [orb andb].
    destruct (recovery <=? high_tol)%float eqn:L2.
    + rewrite (FloatFacts.leb_true_ltb_false _ _ L2). reflexivity.
    + rewrite (FloatFacts.leb_false_ltb_true _ _ Nr Nh L2). reflexivity.
  - rewrite (FloatFacts.leb_false_ltb_true _ _ Nl Nr L1). reflexivity.
Qed.

End WithNumericParser.

Lemma crm_pair_missing_values_witness :
  CRM_Status (crm_pair Examples.decimal_float (Some "STD1") Examples.au_ppm
                80%float 120%float (CStr "< 0.5") (CStr "> 100"))
  = "NotApplicable"
  /\ CRM_Status (crm_pair Examples.decimal_float (Some "STD1")
                   Examples.au_ppm 80%float 120%float (CStr "< 0.5")
                   (CNum 50%float))
     = "NotEvaluated".
Proof.
  destruct (crm_pair_missing_values Examples.decimal_float (Some "STD1")
              Examples.au_ppm 80%float 120%float (CStr "< 0.5")
              (CStr "> 100")) as (B & _).
  destruct (crm_pair_missing_values Examples.decimal_float (Some "STD1")
              Examples.au_ppm 80%float 120%float (CStr "< 0.5")
              (CNum 50%float)) as (_ & O & _).
  split.
  - apply B; reflexivity.
  - apply O. vm_compute. discriminate.
Defined.

(** DL = 1: certified 5 with measured 0.2 is Below10xDL; certified 50 with
    measured 0.2 is Needs Investigation with the marker. *)
Lemma crm_pair_without_recovery_witness :
  CRM_Status (crm_pair Examples.decimal_float (Some "STD1") Examples.au_ppm
                80%float 120%float (CNum 0.2%float) (CNum 5%float))
  = "Below10xDL"
  /\ (CRM_Status (crm_pair Examples.decimal_float (Some "STD1")
                    Examples.au_ppm 80%float 120%float (CNum 0.2%float)
                    (CNum 50%float))
      = "Needs Investigation"
      /\ Recovery (crm_pair Examples.decimal_float (Some "STD1")
                     Examples.au_ppm 80%float 120%float (CNum 0.2%float)
                     (CNum 50%float))
         = CStr "BDL").
Proof.
  destruct (crm_pair_without_recovery Examples.decimal_float (Some "STD1")
              Examples.au_ppm 80%float 120%float (CNum 0.2%float)
              (CNum 5%float) eq_refl eq_refl eq_refl) as (L & _).
  destruct (crm_pair_without_recovery Examples.decimal_float (Some "STD1")
              Examples.au_ppm 80%float 120%float (CNum 0.2%float)
              (CNum 50%float) eq_refl eq_refl eq_refl) as (_ & H).
  split.
  - apply L. reflexivity.
  - destruct (H eq_refl eq_refl eq_refl) as (S & R & _).
    split; assumption.
Defined.

(** DL = 1, certified 50: measured 55 is OK, measured 30 is Fail. *)
Lemma crm_pair_recovery_witness :
  (Recovery (crm_pair Examples.decimal_float (Some "STD1") Examples.au_ppm
               80%float 120%float (CNum 55%float) (CNum 50%float))
   = CNum (55 / 50 * 100)%float
   /\ CRM_Status (crm_pair Examples.decimal_float (Some "STD1")
                    Examples.au_ppm 80%float 120%float (CNum 55%float)
                    (CNum 50%float)) = "OK")
  /\ CRM_Status (crm_pair Examples.decimal_float (Some "STD1")
                   Examples.au_ppm 80%float 120%float (CNum 30%float)
                   (CNum 50%float)) = "Fail".
Proof.
  destruct (crm_pair_recovery Examples.decimal_float (Some "STD1")
              Examples.au_ppm 80%float 120%float (CNum 55%float)
              (CNum 50%float) eq_refl eq_refl eq_refl eq_refl eq_refl)
    as (R & _ & S).
  destruct (crm_pair_recovery Examples.decimal_float (Some "STD1")
              Examples.au_ppm 80%float 120%float (CNum 30%float)
              (CNum 50%float) eq_refl eq_refl eq_refl eq_refl eq_refl)
    as (_ & _ & S').
  split; [split; [exact R | exact (S eq_refl eq_refl eq_refl)] | ].
  exact (S' eq_refl eq_refl eq_refl).
Defined.

End CrmPairFacts.

(** ** The pairing of CRM rows *)

Module CrmPairingFacts.

Import CrmWide.
Import Vocabulary.

Lemma base_key_eqb_refl (k : option string) : DuplicateWide.key_eqb k k = true.
Proof. now apply DuplicateWideFacts.base_key_eqb_eq. Qed.

Lemma base_key_eqb_sym (a b : option string) : DuplicateWide.key_eqb a b = DuplicateWide.key_eqb b a.
Proof.
  destruct (DuplicateWide.key_eqb a b) eqn:E.
  - apply DuplicateWideFacts.base_key_eqb_eq in E. subst.
    symmetry. apply base_key_eqb_refl.
  - destruct (DuplicateWide.key_eqb b a) eqn:E'; [ | reflexivity].
    apply DuplicateWideFacts.base_key_eqb_eq in E'. subst.
    rewrite base_key_eqb_refl in E. discriminate.
Qed.

(** In the numbering of [cumcount], the rows of one base name carry the
    indices 0, 1, 2, ... once each. *)
Lemma cumcount_index (k : option string) (i : nat) (l : list row) :
  forall seen,
    List.length
      (filter (fun p => DuplicateWide.key_eqb (crm_base (fst p)) k && Nat.eqb (snd p) i)
              (cumcount_from seen l))
    = if (List.length (filter (DuplicateWide.key_eqb k) seen) <=? i)%nat
         && (i <? List.length (filter (DuplicateWide.key_eqb k) seen)
                  + List.length (with_base k l))%nat
      then 1 else 0.
Proof.
  induction l as [ | r l IH]; intros seen.
  - simpl. rewrite Nat.add_0_r.
    destruct (Nat.leb_spec (List.length (filter (DuplicateWide.key_eqb k) seen)) i),
      (Nat.ltb_spec i (List.length (filter (DuplicateWide.key_eqb k) seen)));
      simpl; try reflexivity; lia.
  - simpl cumcount_from. unfold with_base. simpl filter. simpl fst. simpl snd.
    destruct (DuplicateWide.key_eqb (crm_base r) k) eqn:E.
    + apply DuplicateWideFacts.base_key_eqb_eq in E. rewrite E.
      simpl andb.
      assert (L : forall (b : bool) (x : row * nat) (t : list (row * nat)),
                 List.length (if b then x :: t else t)
                 = (if b then 1 else 0) + List.length t)
        by (intros [] ? ?; reflexivity).
      rewrite L. rewrite (IH (k :: seen)).
      simpl filter. rewrite base_key_eqb_refl. simpl List.length.
      fold (with_base k l).
      set (c := List.length (filter (DuplicateWide.key_eqb k) seen)).
      set (n := List.length (with_base k l)).
      destruct (Nat.eqb_spec c i), (Nat.leb_spec (S c) i),
        (Nat.ltb_spec i (S c + n)), (Nat.leb_spec c i),
        (Nat.ltb_spec i (c + S n)); simpl; try reflexivity; lia.
    + cbn [andb]. rewrite (IH (crm_base r :: seen)). simpl filter.
      rewrite (base_key_eqb_sym k (crm_base r)), E. reflexivity.
Qed.

Lemma joined_block_count (k : option string) (r : row)
    (l : list (row * nat)) :
  List.length
    (filter (fun p => DuplicateWide.key_eqb (crm_base (fst p)) k)
            (map (fun c => (r, fst c)) l))
  = if DuplicateWide.key_eqb (crm_base r) k then List.length l else 0.
Proof.
  induction l as [ | c l IH]; simpl.
  - destruct (DuplicateWide.key_eqb (crm_base r) k); reflexivity.
  - destruct (DuplicateWide.key_eqb (crm_base r) k); simpl; rewrite IH;
      reflexivity.
Qed.

Lemma joined_cons (m : row * nat) (meas certs : list (row * nat)) :
  joined (m :: meas) certs
  = (map (fun c => (fst m, fst c))
         (filter (fun c =>
                    DuplicateWide.key_eqb (crm_base (fst c)) (crm_base (fst m))
                    && Nat.eqb (snd c) (snd m))
                 certs)
     ++ joined meas certs)%list.
Proof. reflexivity. Qed.

Lemma joined_count (k : option string) (certs : list row) (l : list row) :
  forall seen,
    List.length
      (filter (fun p => DuplicateWide.key_eqb (crm_base (fst p)) k)
              (joined (cumcount_from seen l) (cumcount certs)))
    = Nat.min (List.length (filter (DuplicateWide.key_eqb k) seen)
               + List.length (with_base k l))
              (List.length (with_base k certs))
      - Nat.min (List.length (filter (DuplicateWide.key_eqb k) seen))
                (List.length (with_base k certs)).
Proof.
  induction l as [ | r l IH]; intros seen.
  - simpl. lia.
  - simpl cumcount_from. rewrite joined_cons, filter_app, length_app.
    rewrite (IH (crm_base r :: seen)), joined_block_count.
    simpl fst. simpl snd.
    change (with_base k (r :: l))
      with (if DuplicateWide.key_eqb (crm_base r) k
            then r :: with_base k l else with_base k l).
    simpl (filter _ (crm_base r :: seen)).
    destruct (DuplicateWide.key_eqb (crm_base r) k) eqn:E.
    + apply DuplicateWideFacts.base_key_eqb_eq in E. rewrite E.
      rewrite base_key_eqb_refl. unfold cumcount.
      rewrite (cumcount_index k _ certs []). simpl List.length.
      set (c := List.length (filter (DuplicateWide.key_eqb k) seen)).
      set (n := List.length (with_base k certs)).
      set (m := List.length (with_base k l)).
      change (0 <=? c)%nat with true.
      destruct (Nat.ltb_spec c (0 + n)); cbn [andb]; lia.
    + rewrite (base_key_eqb_sym k (crm_base r)), E. simpl. reflexivity.
Qed.

Lemma merged_pairs_count (k : option string) (df : DataFrame) :
  List.length (filter (fun p => DuplicateWide.key_eqb (crm_base (fst p)) k) (merged df))
  = Nat.min (List.length (with_base k (meas_rows df)))
            (List.length (with_base k (cert_rows df))).
Proof.
  change (merged df)
    with (joined (cumcount_from [] (meas_rows df)) (cumcount (cert_rows df))).
  rewrite joined_count. simpl. lia.
Qed.

Lemma skipn_nth_error {A : Type} (l : list A) (n : nat) :
  skipn n l
  = match nth_error l n with
    | Some x => x :: skipn (S n) l
    | None => []
    end.
Proof.
  revert n. induction l as [ | a l IH]; intros [ | n]; try reflexivity.
  simpl. apply IH.
Qed.

(** In the numbering of [cumcount], the row of base name [k] with the
    index [i] is the [i]-th row of that base name, if there is one. *)
Lemma cumcount_pick (k : option string) (i : nat) (l : list row) :
  forall seen,
    map fst
      (filter (fun p => DuplicateWide.key_eqb (crm_base (fst p)) k
                        && Nat.eqb (snd p) i)
              (cumcount_from seen l))
    = if (i <? List.length (filter (DuplicateWide.key_eqb k) seen))%nat
      then []
      else match nth_error (with_base k l)
                   (i - List.length (filter (DuplicateWide.key_eqb k) seen))
           with
           | Some x => [x]
           | None => []
           end.
Proof.
  induction l as [ | r l IH]; intros seen.
  - simpl. destruct (i <? _)%nat; [reflexivity | ].
    destruct (i - _); reflexivity.
  - simpl cumcount_from. unfold with_base. simpl filter. simpl fst. simpl snd.
    fold (with_base k l).
    destruct (DuplicateWide.key_eqb (crm_base r) k) eqn:E.
    + apply DuplicateWideFacts.base_key_eqb_eq in E. rewrite E.
      cbn [andb].
      set (c := List.length (filter (DuplicateWide.key_eqb k) seen)).
      assert (C' : List.length (filter (DuplicateWide.key_eqb k) (k :: seen))
                   = S c)
        by (simpl; rewrite base_key_eqb_refl; reflexivity).
      destruct (Nat.eqb_spec c i) as [Ei | Ni].
      * simpl map. rewrite (IH (k :: seen)), C'.
        destruct (Nat.ltb_spec i (S c)); [ | lia].
        destruct (Nat.ltb_spec i c); [lia | ].
        replace (i - c) with 0 by lia. reflexivity.
      * rewrite (IH (k :: seen)), C'.
        destruct (Nat.ltb_spec i (S c)), (Nat.ltb_spec i c);
          try reflexivity; try lia.
        replace (i - c) with (S (i - S c)) by lia. reflexivity.
    + cbn [andb]. rewrite (IH (crm_base r :: seen)). simpl filter.
      rewrite (base_key_eqb_sym k (crm_base r)), E. reflexivity.
Qed.

Lemma joined_block (k : option string) (r : row) (l : list (row * nat)) :
  filter (fun p => DuplicateWide.key_eqb (crm_base (fst p)) k)
         (map (fun c => (r, fst c)) l)
  = if DuplicateWide.key_eqb (crm_base r) k
    then map (fun c => (r, c)) (map fst l) else [].
Proof.
  induction l as [ | c l IH]; simpl.
  - destruct (DuplicateWide.key_eqb (crm_base r) k); reflexivity.
  - rewrite IH. destruct (DuplicateWide.key_eqb (crm_base r) k); reflexivity.
Qed.

(** Within a base name the join pairs the rows by position: the first
    measured row with the first certified row, the second with the second,
    and so on, as far as both sides go. *)
Lemma joined_pairs_zip (k : option string) (certs : list row) (l : list row) :
  forall seen,
    filter (fun p => DuplicateWide.key_eqb (crm_base (fst p)) k)
           (joined (cumcount_from seen l) (cumcount certs))
    = combine (with_base k l)
              (skipn (List.length (filter (DuplicateWide.key_eqb k) seen))
                     (with_base k certs)).
Proof.
  induction l as [ | r l IH]; intros seen; [reflexivity | ].
  simpl cumcount_from. rewrite joined_cons, filter_app.
  rewrite (IH (crm_base r :: seen)), joined_block.
  simpl fst. simpl snd.
  change (with_base k (r :: l))
    with (if DuplicateWide.key_eqb (crm_base r) k
          then r :: with_base k l else with_base k l).
  simpl (filter _ (crm_base r :: seen)).
  destruct (DuplicateWide.key_eqb (crm_base r) k) eqn:E.
  - apply DuplicateWideFacts.base_key_eqb_eq in E. rewrite E.
    rewrite base_key_eqb_refl. unfold cumcount.
    rewrite (cumcount_pick k _ certs []).
    change (List.length (filter (DuplicateWide.key_eqb k) [])) with 0.
    change (_ <? 0)%nat with false. cbv iota. rewrite Nat.sub_0_r.
    set (c := List.length (filter (DuplicateWide.key_eqb k) seen)).
    rewrite (skipn_nth_error (with_base k certs) c).
    destruct (nth_error (with_base k certs) c) as [x | ] eqn:N.
    + reflexivity.
    + apply nth_error_None in N.
      change (List.length (k :: filter (DuplicateWide.key_eqb k) seen))
        with (S c).
      rewrite skipn_all2 by lia. destruct (with_base k l); reflexivity.
  - rewrite (base_key_eqb_sym k (crm_base r)), E. reflexivity.
Qed.

Lemma merged_pairs_zip (k : option string) (df : DataFrame) :
  filter (fun p => DuplicateWide.key_eqb (crm_base (fst p)) k) (merged df)
  = combine (with_base k (meas_rows df)) (with_base k (cert_rows df)).
Proof.
  change (merged df)
    with (joined (cumcount_from [] (meas_rows df)) (cumcount (cert_rows df))).
  rewrite joined_pairs_zip. reflexivity.
Qed.

Lemma with_base_In (k : option string) (l : list row) (r : row) :
  In r (with_base k l) -> crm_base r = k.
Proof.
  unfold with_base. intros I. apply filter_In in I. destruct I as (_ & E).
  now apply DuplicateWideFacts.base_key_eqb_eq in E.
Qed.

Lemma combine_fst_firstn {A B : Type} (l : list A) (l' : list B) :
  map fst (combine l l') = firstn (Nat.min (List.length l) (List.length l')) l.
Proof.
  revert l'. induction l as [ | a l IH]; intros [ | b l']; try reflexivity.
  simpl. now rewrite IH.
Qed.

Lemma combine_snd_firstn {A B : Type} (l : list A) (l' : list B) :
  map snd (combine l l') = firstn (Nat.min (List.length l) (List.length l')) l'.
Proof.
  revert l'. induction l as [ | a l IH]; intros [ | b l']; try reflexivity.
  simpl. now rewrite IH.
Qed.

Section WithNumericParser.

Variable pd_numeric : string -> option float.

(** X12: the CRM rows are paired by position within a base name: the pairs
    of a base name are its first measured row with its first certified
    row, its second measured row with its second certified row, and so on.
    With m measured rows and n certified rows of the base name the rows
    that take part are the first min(m, n) measured rows and the first
    min(m, n) certified rows, each once and in the order of the table; the
    later rows of the longer side are left out.  For an analyte the records
    of that base name are the records of exactly these pairs, min(m, n) of
    them, and the whole result holds min(m, n) records of that base name
    for each analyte of the metadata whose column is in the table. *)
Theorem crm_pairs_are_positional (df : DataFrame)
    (metadata : list analyte_meta) (low_tol high_tol : float)
    (k : option string) :
  let meas := with_base k (meas_rows df) in
  let certs := with_base k (cert_rows df) in
  filter (fun p => DuplicateWide.key_eqb (crm_base (fst p)) k) (merged df)
  = combine meas certs
  /\ map fst
       (filter (fun p => DuplicateWide.key_eqb (crm_base (fst p)) k) (merged df))
     = firstn (Nat.min (List.length meas) (List.length certs)) meas
  /\ map snd
       (filter (fun p => DuplicateWide.key_eqb (crm_base (fst p)) k) (merged df))
     = firstn (Nat.min (List.length meas) (List.length certs)) certs
  /\ (forall m,
        filter (fun r => DuplicateWide.key_eqb (CRM r) k)
          (analyte_records pd_numeric df m low_tol high_tol)
        = map (fun p =>
                 crm_pair pd_numeric k m low_tol high_tol
                   (get (col_name m) (fst p)) (get (col_name m) (snd p)))
              (combine meas certs))
  /\ (forall m,
        List.length
          (filter (fun r => DuplicateWide.key_eqb (CRM r) k)
             (analyte_records pd_numeric df m low_tol high_tol))
        = Nat.min (List.length meas) (List.length certs))
  /\ List.length
       (filter (fun r => DuplicateWide.key_eqb (CRM r) k)
          (compute_crm_recovery pd_numeric df metadata low_tol high_tol))
     = List.length (filter (fun m => has_column df (col_name m)) metadata)
       * Nat.min (List.length meas) (List.length certs).
Proof.
  intros meas certs.
  assert (A : forall m,
             List.length
               (filter (fun r => DuplicateWide.key_eqb (CRM r) k)
                  (analyte_records pd_numeric df m low_tol high_tol))
             = Nat.min (List.length meas) (List.length certs)).
  { intros m. unfold analyte_records.
    rewrite DuplicateWideFacts.filter_map_length.
    simpl CRM. apply merged_pairs_count. }
  split; [apply merged_pairs_zip | ].
  split; [rewrite merged_pairs_zip; apply combine_fst_firstn | ].
  split; [rewrite merged_pairs_zip; apply combine_snd_firstn | ].
  split; [ | split; [exact A | ]].
  - intros m. unfold analyte_records.
    rewrite DuplicateWideFacts.filter_map_commute.
    simpl CRM. rewrite merged_pairs_zip. fold meas certs.
    apply map_ext_in. intros (x, c) I. apply in_combine_l in I.
    simpl fst. rewrite (with_base_In k _ x I). reflexivity.
  - unfold compute_crm_recovery.
    induction (filter (fun m => has_column df (col_name m)) metadata)
      as [ | m ms IH]; [reflexivity | ].
    simpl flat_map. rewrite filter_app, length_app, A, IH. simpl. lia.
Qed.

End WithNumericParser.

(** Three measured runs and two certified rows of STD1 give two records,
    the first run with the first certificate row and the second with the
    second; the third run is left out. *)
Example crm_table_records :
  map (fun r => (CRM r, Measured r, Certified r, CRM_Status r))
      (compute_crm_recovery Examples.decimal_float Examples.crm_table
         [Examples.au_ppm] 80%float 120%float)
  = [(Some "STD1", 55%float, 50%float, "OK");
     (Some "STD2", 30%float, 50%float, "Fail");
     (Some "STD1", 45%float, 50%float, "OK")].
Proof. vm_compute. reflexivity. Qed.

End CrmPairingFacts.

(** ** More on the blank evaluator *)

Module BlankColumnFacts.

Import BlankWide.
Import Vocabulary.

Lemma lower_ascii_idempotent (c : ascii) :
  PyStr.lower_ascii (PyStr.lower_ascii c) = PyStr.lower_ascii c.
Proof.
  destruct c as [[] [] [] [] [] [] [] []]; reflexivity.
Qed.

Lemma lower_idempotent (s : string) : PyStr.lower (PyStr.lower s) = PyStr.lower s.
Proof.
  induction s as [ | c s IH]; simpl; [reflexivity | ].
  rewrite lower_ascii_idempotent, IH. reflexivity.
Qed.

(** X13: the name of the substitution rule is read without regard to case
    ("HALF", "Sqrt2"), and every name other than sqrt2, zero and dl, known
    or not, gives DL / 2; a numeric rule is returned as it is, whatever
    DL. *)
Theorem bdl_substitution_rule_names (dl : float) (r : string) :
  bdl_substitution dl (RuleStr r) = bdl_substitution dl (RuleStr (PyStr.lower r))
  /\ (PyStr.lower r <> "sqrt2" -> PyStr.lower r <> "zero" ->
      PyStr.lower r <> "dl" ->
      bdl_substitution dl (RuleStr r) = (dl / 2)%float)
  /\ (forall x, bdl_substitution dl (RuleNum x) = x).
Proof.
  split; [ | split].
  - unfold bdl_substitution. rewrite lower_idempotent. reflexivity.
  - intros N1 N2 N3. unfold bdl_substitution.
    apply String.eqb_neq in N1, N2, N3. rewrite N1, N2, N3.
    destruct (String.eqb (PyStr.lower r) "half"); reflexivity.
  - reflexivity.
Qed.

Lemma bdl_substitution_rule_names_witness :
  bdl_substitution 1%float (RuleStr "Median") = (1 / 2)%float.
Proof.
  destruct (bdl_substitution_rule_names 1%float "Median") as (_ & H & _).
  apply H; vm_compute; discriminate.
Defined.

Section WithFloatParser.

Variable py_float : string -> option float.

(** X14: the Blank Status of an analyte is NotEvaluated exactly when every
    raw cell of its column is missing, and then Average and StDev are the
    empty string; otherwise the Status is one of OK, Needs Investigation
    and Fail and Average and StDev are numbers. *)
Theorem blank_not_evaluated_iff_all_missing (m : analyte_meta)
    (raw : list cell) (tolerance_factor : float) (rule : bdl_rule) :
  let r := blank_column py_float m raw tolerance_factor rule in
  (Blank_Status r = "NotEvaluated" <-> forallb pd_isna raw = true)
  /\ (forallb pd_isna raw = true ->
      Average r = CStr "" /\ StDev r = CStr "")
  /\ (forallb pd_isna raw = false ->
      (Blank_Status r = "OK" \/ Blank_Status r = "Needs Investigation"
       \/ Blank_Status r = "Fail")
      /\ (exists a s, Average r = CNum a /\ StDev r = CNum s)).
Proof.
  intros r. subst r. unfold blank_column.
  destruct (forallb pd_isna raw); simpl.
  - repeat split; intros; try reflexivity; discriminate.
  - split; [ | split]; try discriminate.
    + split; [ | discriminate].
      destruct (existsb is_bdl raw); [discriminate | ].
      repeat match goal with
             | |- context [PrimFloat.ltb ?a ?b] => destruct (PrimFloat.ltb a b)
             end; discriminate.
    + intros _. split; [ | eauto].
      destruct (existsb is_bdl raw); [auto | ].
      repeat match goal with
             | |- context [PrimFloat.ltb ?a ?b] => destruct (PrimFloat.ltb a b)
             end; auto.
Qed.

Lemma blank_results_map (df : DataFrame) (metadata : list analyte_meta)
    (tolerance_factor : float) (rule : bdl_rule) :
  blank_results py_float df metadata tolerance_factor rule
  = map (fun m => blank_column py_float m
                    (column (col_name m) (blank_rows df))
                    tolerance_factor rule)
        (filter (fun m => has_column df (col_name m)) metadata).
Proof.
  induction metadata as [ | m rest IH]; [reflexivity | ].
  simpl. destruct (has_column df (col_name m)); simpl; rewrite IH; reflexivity.
Qed.

(** X15: [compute_blank_qc] returns the empty table when the data has no
    blank row; with a blank row it raises (nothing to concatenate) when no
    analyte of the metadata has its column in the table, and otherwise
    returns one record per analyte of the metadata whose column is in the
    table, in metadata order, computed from that column over the blank
    rows. *)
Theorem compute_blank_qc_shape (df : DataFrame)
    (metadata : list analyte_meta) (tolerance_factor : float)
    (rule : bdl_rule) :
  let mapped := filter (fun m => has_column df (col_name m)) metadata in
  (blank_rows df = [] ->
   compute_blank_qc py_float df metadata tolerance_factor rule = Some [])
  /\ (blank_rows df <> [] -> mapped = [] ->
      compute_blank_qc py_float df metadata tolerance_factor rule = None)
  /\ (blank_rows df <> [] -> mapped <> [] ->
      compute_blank_qc py_float df metadata tolerance_factor rule
      = Some (map (fun m => blank_column py_float m
                              (column (col_name m) (blank_rows df))
                              tolerance_factor rule)
                  mapped)).
Proof.
  intros mapped. unfold compute_blank_qc. rewrite blank_results_map.
  fold mapped.
  split; [ | split].
  - intros ->. reflexivity.
  - intros N ->. destruct (blank_rows df); [congruence | reflexivity].
  - intros N M. destruct (blank_rows df) as [ | r rs] eqn:E; [congruence | ].
    destruct mapped as [ | m ms]; [congruence | reflexivity].
Qed.

Lemma blank_status_fail_upper (m : analyte_meta) (raw : list cell)
    (tolerance_factor : float) (rule : bdl_rule) :
  String.eqb
    (PyStr.upper
       (Blank_Status (blank_column py_float m raw tolerance_factor rule)))
    "FAIL"
  = String.eqb
      (Blank_Status (blank_column py_float m raw tolerance_factor rule))
      "Fail".
Proof.
  unfold blank_column.
  destruct (forallb pd_isna raw); simpl; [reflexivity | ].
  destruct (existsb is_bdl raw); [reflexivity | ].
  repeat match goal with
         | |- context [PrimFloat.ltb ?a ?b] => destruct (PrimFloat.ltb a b)
         end; reflexivity.
Qed.

Section WithFormat.

Variable format_cell : cell -> string.

(** X16: on a table produced by [compute_blank_qc], [summarize_blanks]
    counts one blank per record and as failures exactly the records whose
    Blank Status is Fail. *)
Theorem summarize_blanks_counts_failures (df : DataFrame)
    (metadata : list analyte_meta) (tolerance_factor : float)
    (rule : bdl_rule) (results : list blank_record) :
  compute_blank_qc py_float df metadata tolerance_factor rule = Some results ->
  Interpretation.b_count (Interpretation.summarize_blanks format_cell results)
  = List.length results
  /\ Interpretation.b_failures
       (Interpretation.summarize_blanks format_cell results)
     = List.length
         (filter (fun r => String.eqb (Blank_Status r) "Fail") results).
Proof.
  intros C.
  assert (R : exists ms,
             results
             = map (fun m => blank_column py_float m
                               (column (col_name m) (blank_rows df))
                               tolerance_factor rule) ms).
  { unfold compute_blank_qc in C. rewrite blank_results_map in C.
    destruct (blank_rows df) as [ | r rs].
    - injection C as <-. exists []. reflexivity.
    - destruct (map _ _) as [ | x xs] eqn:E; [discriminate | ].
      injection C as <-. rewrite <- E. eexists. reflexivity. }
  destruct R as (ms & ->).
  assert (F : forall l,
             filter (fun r => String.eqb (PyStr.upper (Blank_Status r)) "FAIL")
               (map (fun m => blank_column py_float m
                                (column (col_name m) (blank_rows df))
                                tolerance_factor rule) l)
             = filter (fun r => String.eqb (Blank_Status r) "Fail")
                 (map (fun m => blank_column py_float m
                                  (column (col_name m) (blank_rows df))
                                  tolerance_factor rule) l)).
  { induction l as [ | m l IH]; [reflexivity | ].
    simpl map. simpl filter. rewrite blank_status_fail_upper, IH.
    reflexivity. }
  unfold Interpretation.summarize_blanks.
  destruct ms as [ | m ms]; [split; reflexivity | ].
  remember (m :: ms) as l eqn:El.
  destruct (map _ l) as [ | x xs] eqn:E; [subst l; discriminate | ].
  rewrite <- E. simpl. rewrite F. split; reflexivity.
Qed.

End WithFormat.

End WithFloatParser.

Lemma compute_blank_qc_shape_witness :
  compute_blank_qc Examples.decimal_float Examples.blank_table [Examples.cu_ppm]
    3%float (RuleStr "half") = None
  /\ option_map (map Blank_Status)
       (compute_blank_qc Examples.decimal_float Examples.blank_table
          [Examples.cu_ppm; Examples.au_ppm] 3%float (RuleStr "half"))
     = Some ["Fail"].
Proof.
  destruct (compute_blank_qc_shape Examples.decimal_float Examples.blank_table
              [Examples.cu_ppm] 3%float (RuleStr "half")) as (_ & N & _).
  destruct (compute_blank_qc_shape Examples.decimal_float Examples.blank_table
              [Examples.cu_ppm; Examples.au_ppm] 3%float (RuleStr "half"))
    as (_ & _ & S).
  split.
  - apply N; [discriminate | reflexivity].
  - rewrite S; [reflexivity | discriminate | discriminate].
Defined.

Lemma summarize_blanks_counts_failures_witness :
  exists results,
    compute_blank_qc Examples.decimal_float Examples.blank_table [Examples.au_ppm]
      3%float (RuleStr "half") = Some results
    /\ Interpretation.b_failures
         (Interpretation.summarize_blanks (fun _ => "") results) = 1.
Proof.
  destruct (compute_blank_qc Examples.decimal_float Examples.blank_table
              [Examples.au_ppm] 3%float (RuleStr "half"))
    as [results | ] eqn:C; [ | vm_compute in C; discriminate].
  exists results. split; [reflexivity | ].
  destruct (summarize_blanks_counts_failures Examples.decimal_float
              (fun _ => "") Examples.blank_table [Examples.au_ppm] 3%float
              (RuleStr "half") results C) as (_ & F).
  rewrite F. vm_compute in C. injection C as <-. reflexivity.
Defined.

End BlankColumnFacts.

(** ** Sample names and column names *)

Module NameFacts.

Import Vocabulary.

Lemma prefix_refl (p : string) : String.prefix p p = true.
Proof.
  induction p as [ | c p IH]; [reflexivity | ].
  simpl. destruct (ascii_dec c c); [exact IH | congruence].
Qed.

Lemma contains_cons (p : string) (c : ascii) (s : string) :
  PyStr.contains p (String c s)
  = String.prefix p (String c s) || PyStr.contains p s.
Proof. reflexivity. Qed.

Lemma replace_from_skip (old new s : string) (k : nat) :
  String.length s <= k -> PyStr.replace_from old new s k = "".
Proof.
  revert k. induction s as [ | c s IH]; intros k L; [reflexivity | ].
  simpl in L. destruct k as [ | k]; [lia | ].
  simpl. apply IH. lia.
Qed.

(** A string without an occurrence of [old] is left as it is. *)
Lemma replace_absent (old new s : string) :
  PyStr.contains old s = false -> PyStr.replace s old new = s.
Proof.
  unfold PyStr.replace. induction s as [ | c s IH]; intros C.
  - reflexivity.
  - rewrite contains_cons in C. apply orb_false_iff in C.
    destruct C as (P & C). cbn [PyStr.replace_from]. rewrite P.
    rewrite (IH C). reflexivity.
Qed.

Lemma prefix_app_false (v q x : string) :
  no_overlap v q = true -> String.prefix v x = false ->
  String.prefix v (x ++ q) = false.
Proof.
  revert x. induction v as [ | a v IH]; intros x N P.
  - destruct x; discriminate.
  - simpl in N. apply andb_true_iff in N. destruct N as (N1 & N2).
    destruct x as [ | b x].
    + simpl. now apply negb_true_iff in N1.
    + simpl in *. destruct (ascii_dec a b); [now apply IH | reflexivity].
Qed.

Lemma prefix_cons_app_false (a : ascii) (v q : string) (b : ascii)
    (x : string) :
  no_overlap v q = true -> String.prefix (String a v) (String b x) = false ->
  String.prefix (String a v) (String b x ++ q) = false.
Proof.
  simpl. intros N P. destruct (ascii_dec a b); [ | reflexivity].
  now apply prefix_app_false.
Qed.

(** Appending [q] to a string without an occurrence of [p] creates none,
    when [q] holds none and cannot complete one. *)
Lemma contains_app_false (a : ascii) (v q x : string) :
  no_overlap v q = true -> PyStr.contains (String a v) q = false ->
  PyStr.contains (String a v) x = false ->
  PyStr.contains (String a v) (x ++ q) = false.
Proof.
  intros N Q. induction x as [ | b x IH]; intros C; [exact Q | ].
  rewrite contains_cons in C. apply orb_false_iff in C. destruct C as (P & C).
  change (String b x ++ q) with (String b (x ++ q)). rewrite contains_cons.
  change (String b (x ++ q)) with (String b x ++ q).
  rewrite (prefix_cons_app_false a v q b x N P). simpl. now apply IH.
Qed.

(** A marker at the end of a name that holds no other occurrence of it is
    removed, and nothing else. *)
Lemma replace_suffix (a : ascii) (v x : string) :
  no_overlap v (String a v) = true ->
  PyStr.contains (String a v) x = false ->
  PyStr.replace (x ++ String a v) (String a v) "" = x.
Proof.
  intros N. unfold PyStr.replace. induction x as [ | b x IH]; intros C.
  - change ("" ++ String a v) with (String a v).
    simpl PyStr.replace_from. destruct (ascii_dec a a); [ | congruence].
    rewrite prefix_refl. rewrite Nat.sub_0_r.
    rewrite replace_from_skip; [reflexivity | lia].
  - rewrite contains_cons in C. apply orb_false_iff in C.
    destruct C as (P & C).
    pose proof (prefix_cons_app_false a v (String a v) b x N P) as P'.
    change (String b x ++ String a v) with (String b (x ++ String a v)) in *.
    cbn [PyStr.replace_from]. rewrite P'. rewrite (IH C). reflexivity.
Qed.

(** X17: the base key of a duplicate row: for a name without " Orig" and
    " Dup" inside, the rows named name + " Orig" and name + " Dup" get the
    same key, the stripped name, so they are paired; a name that holds
    neither marker (the markers are case-sensitive) keeps its whole
    stripped text as key. *)
Theorem duplicate_base_name_round_trip (x : string) :
  PyStr.contains " Orig" x = false -> PyStr.contains " Dup" x = false ->
  DuplicateWide.base_name (CStr (x ++ " Orig")) = Some (PyStr.strip x)
  /\ DuplicateWide.base_name (CStr (x ++ " Dup")) = Some (PyStr.strip x)
  /\ DuplicateWide.base_name (CStr x) = Some (PyStr.strip x).
Proof.
  intros O D. unfold DuplicateWide.base_name. split; [ | split].
  - rewrite (replace_suffix " " "Orig" x eq_refl O).
    rewrite (replace_absent " Dup" "" x D). reflexivity.
  - rewrite (replace_absent " Orig" "" (x ++ " Dup")).
    + rewrite (replace_suffix " " "Dup" x eq_refl D). reflexivity.
    + apply (contains_app_false " " "Orig" " Dup" x eq_refl eq_refl O).
  - rewrite (replace_absent " Orig" "" x O).
    rewrite (replace_absent " Dup" "" x D). reflexivity.
Qed.

(** X18: the base name of a CRM row: for a name without " Meas" and
    " Cert" inside, the rows named name + " Meas" and name + " Cert" get
    the same base name, the stripped name. *)
Theorem crm_base_name_round_trip (x : string) :
  PyStr.contains " Meas" x = false -> PyStr.contains " Cert" x = false ->
  CrmWide.base_name (CStr (x ++ " Meas")) = Some (PyStr.strip x)
  /\ CrmWide.base_name (CStr (x ++ " Cert")) = Some (PyStr.strip x).
Proof.
  intros M C. unfold CrmWide.base_name. split.
  - rewrite (replace_suffix " " "Meas" x eq_refl M).
    rewrite (replace_absent " Cert" "" x C). reflexivity.
  - rewrite (replace_absent " Meas" "" (x ++ " Cert")).
    + rewrite (replace_suffix " " "Cert" x eq_refl C). reflexivity.
    + apply (contains_app_false " " "Meas" " Cert" x eq_refl eq_refl M).
Qed.

Lemma duplicate_base_name_round_trip_witness :
  DuplicateWide.base_name (CStr "Sample 12 Orig") = Some "Sample 12"
  /\ DuplicateWide.base_name (CStr "Sample 12 Dup") = Some "Sample 12"
  /\ DuplicateWide.base_name (CStr "S1 ORIG") = Some "S1 ORIG".
Proof.
  destruct (duplicate_base_name_round_trip "Sample 12" eq_refl eq_refl)
    as (O & D & _).
  destruct (duplicate_base_name_round_trip "S1 ORIG" eq_refl eq_refl)
    as (_ & _ & U).
  split; [exact O | split; [exact D | exact U]].
Defined.

Lemma crm_base_name_round_trip_witness :
  CrmWide.base_name (CStr "OREAS 45d Meas") = Some "OREAS 45d"
  /\ CrmWide.base_name (CStr "OREAS 45d Cert") = Some "OREAS 45d".
Proof.
  exact (crm_base_name_round_trip "OREAS 45d" eq_refl eq_refl).
Defined.

(** *** Column names *)

Lemma replace_char_removes (c : ascii) (s : string) :
  PyStr.contains (String c "") (PyStr.replace s (String c "") "") = false.
Proof.
  unfold PyStr.replace. induction s as [ | a s IH]; [reflexivity | ].
  cbn [PyStr.replace_from]. simpl String.prefix.
  destruct (ascii_dec c a) as [E | N].
  - destruct s; simpl; exact IH.
  - rewrite contains_cons. simpl String.prefix.
    destruct (ascii_dec c a); [contradiction | ]. exact IH.
Qed.

Lemma replace_char_keeps_absent (d c : ascii) (s : string) :
  PyStr.contains (String d "") s = false ->
  PyStr.contains (String d "") (PyStr.replace s (String c "") "") = false.
Proof.
  unfold PyStr.replace. induction s as [ | a s IH]; intros C; [reflexivity | ].
  rewrite contains_cons in C. apply orb_false_iff in C. destruct C as (P & C).
  cbn [PyStr.replace_from]. simpl (String.prefix (String c "") _).
  destruct (ascii_dec c a) as [E | N].
  - destruct s; simpl; exact (IH C).
  - rewrite contains_cons. simpl in P. simpl String.prefix.
    destruct (ascii_dec d a); [destruct s; discriminate | ]. exact (IH C).
Qed.

(** X19: the column name built from an analyte and its unit holds no space
    and no slash, whatever the two strings are. *)
Theorem col_name_has_no_space_or_slash (m : analyte_meta) :
  PyStr.contains " " (col_name m) = false
  /\ PyStr.contains "/" (col_name m) = false.
Proof.
  unfold col_name. split.
  - apply replace_char_keeps_absent. apply replace_char_removes.
  - apply replace_char_removes.
Qed.

End NameFacts.

(** ** The classifier and the evaluators *)

Module ClassifierFacts.

Import Classifier.
Import Vocabulary.

Lemma classify_labels (sample : cell) :
  In (classify_qc_row sample)
     ["Other"; "Blank"; "Duplicate_Orig"; "Duplicate_Dup"; "CRM"].
Proof.
  unfold classify_qc_row. destruct sample as [ | x | s]; simpl; auto.
  repeat match goal with
         | |- context [if ?b then _ else _] => destruct b
         end; simpl; auto 10.
Qed.

Lemma filter_map_swap {A B : Type} (f : A -> B) (g : B -> bool)
    (l : list A) :
  filter g (map f l) = map f (filter (fun a => g (f a)) l).
Proof.
  induction l as [ | a l IH]; [reflexivity | ].
  simpl. destruct (g (f a)); simpl; rewrite IH; reflexivity.
Qed.

(** On a classified row, each evaluator's row test is the test of the
    class. *)
Lemma evaluator_tests (r : row) :
  let c := classify_qc_row (get "Sample" r) in
  str_contains "Blank" (get "QC_Type" (classified r)) = String.eqb c "Blank"
  /\ (str_contains "Duplicate" (get "QC_Type" (classified r))
      && cell_is "Duplicate_Orig" (get "QC_Type" (classified r)))
     = String.eqb c "Duplicate_Orig"
  /\ (str_contains "Duplicate" (get "QC_Type" (classified r))
      && cell_is "Duplicate_Dup" (get "QC_Type" (classified r)))
     = String.eqb c "Duplicate_Dup"
  /\ cell_is "CRM" (get "QC_Type" (classified r)) = String.eqb c "CRM".
Proof.
  intros c. subst c. unfold classified.
  change (get "QC_Type" (("QC_Type", ?v) :: r)) with v.
  cbn [get String.eqb Ascii.eqb Bool.eqb].
  pose proof (classify_labels (get "Sample" r)) as L. simpl in L.
  destruct L as [<- | [<- | [<- | [<- | [<- | []]]]]];
    repeat split; reflexivity.
Qed.

(** X20: after [classify_qc_table], the blank evaluator works on exactly
    the rows whose sample name is classified Blank, the duplicate evaluator
    takes as originals and as duplicates exactly the rows classified
    Duplicate_Orig and Duplicate_Dup, and the CRM evaluator works on
    exactly the rows classified CRM; a row classified Other reaches no
    evaluator. *)
Theorem classified_rows_reach_their_evaluator (df : DataFrame) :
  let df' := classify_qc_table df in
  let of_class (c : string) :=
    map classified
        (filter (fun r => String.eqb (classify_qc_row (get "Sample" r)) c)
                (df_rows df)) in
  BlankWide.blank_rows df' = of_class "Blank"
  /\ DuplicateWide.orig_rows df' = of_class "Duplicate_Orig"
  /\ DuplicateWide.dupe_rows df' = of_class "Duplicate_Dup"
  /\ CrmWide.crm_rows df' = of_class "CRM".
Proof.
  intros df' of_class. subst df' of_class.
  unfold BlankWide.blank_rows, DuplicateWide.orig_rows,
    DuplicateWide.dupe_rows, DuplicateWide.dup_rows, CrmWide.crm_rows,
    classify_qc_table. cbn [df_rows].
  fold classified.
  change (map (fun r => ("QC_Type", CStr (classify_qc_row (get "Sample" r)))
                        :: r) (df_rows df))
    with (map classified (df_rows df)).
  rewrite !DuplicateWideFacts.filter_filter.
  repeat split; rewrite filter_map_swap; f_equal; apply filter_ext;
    intros r; apply (evaluator_tests r).
Qed.

(** *** Letter case *)

Lemma upper_ascii_idempotent (c : ascii) :
  PyStr.upper_ascii (PyStr.upper_ascii c) = PyStr.upper_ascii c.
Proof. destruct c as [[] [] [] [] [] [] [] []]; reflexivity. Qed.

Lemma upper_lower_ascii (c : ascii) :
  PyStr.upper_ascii (PyStr.lower_ascii c) = PyStr.upper_ascii c.
Proof. destruct c as [[] [] [] [] [] [] [] []]; reflexivity. Qed.

Lemma is_space_upper (c : ascii) :
  PyStr.is_space (PyStr.upper_ascii c) = PyStr.is_space c.
Proof. destruct c as [[] [] [] [] [] [] [] []]; reflexivity. Qed.

Lemma is_space_lower (c : ascii) :
  PyStr.is_space (PyStr.lower_ascii c) = PyStr.is_space c.
Proof. destruct c as [[] [] [] [] [] [] [] []]; reflexivity. Qed.

Section CharMap.

(** A map on characters that keeps the blanks: [upper_ascii],
    [lower_ascii]. *)
Variable f : ascii -> ascii.
Hypothesis f_space : forall c, PyStr.is_space (f c) = PyStr.is_space c.

Lemma lstrip_map (s : string) :
  PyStr.lstrip (map_string f s) = map_string f (PyStr.lstrip s).
Proof.
  induction s as [ | c s IH]; [reflexivity | ].
  simpl. rewrite f_space. destruct (PyStr.is_space c); [exact IH | reflexivity].
Qed.

Lemma rev_map (s acc : string) :
  PyStr.rev (map_string f s) (map_string f acc) = map_string f (PyStr.rev s acc).
Proof.
  revert acc. induction s as [ | c s IH]; intros acc; [reflexivity | ].
  simpl. apply (IH (String c acc)).
Qed.

Lemma rev_map_nil (s : string) :
  PyStr.rev (map_string f s) "" = map_string f (PyStr.rev s "").
Proof. exact (rev_map s ""). Qed.

Lemma strip_map (s : string) :
  PyStr.strip (map_string f s) = map_string f (PyStr.strip s).
Proof.
  unfold PyStr.strip, PyStr.rstrip.
  rewrite lstrip_map, rev_map_nil, lstrip_map, rev_map_nil. reflexivity.
Qed.

Lemma map_string_empty (s : string) :
  String.eqb (map_string f s) "" = String.eqb s "".
Proof. destruct s; reflexivity. Qed.

End CharMap.

Lemma upper_is_map (s : string) : PyStr.upper s = map_string PyStr.upper_ascii s.
Proof. induction s as [ | c s IH]; simpl; congruence. Qed.

Lemma lower_is_map (s : string) : PyStr.lower s = map_string PyStr.lower_ascii s.
Proof. induction s as [ | c s IH]; simpl; congruence. Qed.

Lemma upper_idempotent (s : string) : PyStr.upper (PyStr.upper s) = PyStr.upper s.
Proof.
  induction s as [ | c s IH]; simpl; [reflexivity | ].
  rewrite upper_ascii_idempotent, IH. reflexivity.
Qed.

Lemma upper_lower (s : string) : PyStr.upper (PyStr.lower s) = PyStr.upper s.
Proof.
  induction s as [ | c s IH]; simpl; [reflexivity | ].
  rewrite upper_lower_ascii, IH. reflexivity.
Qed.

(** X21: the class of a sample name does not depend on the case of its
    letters: the name written in upper case, or in lower case, gets the
    same class. *)
Theorem classification_ignores_case (s : string) :
  classify_qc_row (CStr (PyStr.upper s)) = classify_qc_row (CStr s)
  /\ classify_qc_row (CStr (PyStr.lower s)) = classify_qc_row (CStr s).
Proof.
  unfold classify_qc_row. split.
  - rewrite (upper_is_map s), (strip_map _ is_space_upper), map_string_empty.
    rewrite <- (upper_is_map (PyStr.strip s)), upper_idempotent. reflexivity.
  - rewrite (lower_is_map s), (strip_map _ is_space_lower), map_string_empty.
    rewrite <- (lower_is_map (PyStr.strip s)), upper_lower. reflexivity.
Qed.

(** The rows "s1 orig" and "s1 dup" are classified as a duplicate pair, and
    keep two different base keys. *)
Example lower_case_pair_is_not_matched :
  classify_qc_row (CStr "s1 orig") = "Duplicate_Orig"
  /\ classify_qc_row (CStr "s1 dup") = "Duplicate_Dup"
  /\ DuplicateWide.key_eqb (DuplicateWide.base_name (CStr "s1 orig"))
       (DuplicateWide.base_name (CStr "s1 dup")) = false.
Proof. repeat split. Qed.

End ClassifierFacts.
